(** * AI Invoice Auditor: the extraction core of [app.py]

    A shallow embedding of the schema classes ([LineItem], [RiskAssessment],
    [InvoiceExtraction]), of [extract_text_from_pdf] and of [analyze_invoice],
    followed by the properties of the specification that concern them.

    Python values are modelled as the source has them: [float] is IEEE-754
    binary64 (the Standard Library's [spec_float] at precision 53), [int] is
    unbounded ([Z]), [str] is [string] (the bytes of the text in UTF-8, a lone
    surrogate being written as the three bytes [surrogatepass] gives it), a
    [dict] obtained from [json.loads] is the list of its items.  The third-party SDK calls, [pdfplumber] and
    [st.error] are effects: the SDKs and the PDF are inputs of the model, the
    outbound calls and the messages shown are recorded in a [World]. *)

From Stdlib Require Import ZArith List String Ascii Bool Lia.
From Stdlib Require Import Floats.SpecFloat.
Import ListNotations.

Local Open Scope string_scope.
Local Open Scope Z_scope.

(** ** Python numbers *)

Module Py.

(** [float]: binary64. *)
Definition float : Type := spec_float.

Definition prec : Z := 53.
Definition emax : Z := 1024.

Definition fadd : float -> float -> float := SFadd prec emax.
Definition fmul : float -> float -> float := SFmul prec emax.
Definition fsub : float -> float -> float := SFsub prec emax.
Definition fabs : float -> float := SFabs.
Definition flt : float -> float -> bool := SFltb.

(** [math.isfinite]. *)
Definition isfinite (f : float) : bool :=
  match f with
  | S754_zero _ | S754_finite _ _ _ => true
  | S754_infinity _ | S754_nan => false
  end.

(** [float(z)] for an [int]: correctly rounded; [None] is [OverflowError]. *)
Definition float_of_int (z : Z) : option float :=
  match binary_normalize prec emax z 0 false with
  | S754_infinity _ => None
  | f => Some f
  end.

Definition float_of_bool (b : bool) : float :=
  binary_normalize prec emax (if b then 1 else 0) 0 false.

(** The float nearest to [(-1)^neg * m / 10^k], ties to even. *)
Definition float_of_decimal (neg : bool) (m : N) (k : nat) : float :=
  match m with
  | N0 => S754_zero neg
  | Npos p =>
      SFdiv prec emax (S754_finite neg p 0)
                      (S754_finite false (Z.to_pos (10 ^ Z.of_nat k)) 0)
  end.

End Py.

(** ** Python texts *)

(** A text is its bytes in UTF-8.  [json.loads] can build a text that holds
    a lone surrogate (from an escape such as \ud800 with no partner), which
    UTF-8 cannot encode; such a code point is written here as the error
    handler [surrogatepass] writes it: the byte 237, a byte from 160 to 191,
    and a continuation byte.  In well-formed text the first two occur
    together nowhere else. *)
Definition surrogate_lead (c1 c2 : ascii) : bool :=
  ((N_of_ascii c1 =? 237) && (160 <=? N_of_ascii c2)
   && (N_of_ascii c2 <=? 191))%N.

(** [s.encode()] does not raise: the text holds no lone surrogate. *)
Fixpoint encodable (s : string) : bool :=
  match s with
  | String c1 s' =>
      match s' with
      | String c2 _ => negb (surrogate_lead c1 c2) && encodable s'
      | EmptyString => true
      end
  | EmptyString => true
  end.

(** Reading an [int] from text ([json.loads] does, for a number without
    point or exponent) raises beyond 4300 digits, the default limit. *)
Definition max_str_digits : Z := 4300.

Definition readable_int (z : Z) : bool := Z.abs z <? 10 ^ max_str_digits.

(** ** Values built by [json.loads] *)

(** The Python object [json.loads] returns: [None], [bool], [int], [float],
    [str], [list] and [dict].  A number written with a point or an exponent
    is a float, and one beyond binary64, such as 1e999, is an infinity; so
    are the constants [Infinity] and [-Infinity], and [NaN] is the NaN.  A
    [dict] is the list of its items; [dict_get] takes the first item with the
    key. *)
#[local] Set Warnings "-register-all".
Inductive value : Type :=
| VNone
| VBool (b : bool)
| VInt (z : Z)
| VFloat (f : Py.float)
| VStr (s : string)
| VList (l : list value)
| VDict (d : list (string * value)).

Definition dict : Type := list (string * value).

Fixpoint dict_get (d : dict) (k : string) : option value :=
  match d with
  | [] => None
  | (k', v) :: d' => if String.eqb k' k then Some v else dict_get d' k
  end.

(** ** Text to number, as the validator's lax mode reads it

    Plain decimal notation only: an optional sign, digits, and for a float an
    optional point.  The library reads more than this fragment: exponents,
    underscores between digits, surrounding blanks, the spellings of infinity
    and NaN, and for an int a point followed by zeros.  For such a text the
    functions below give no number, so the validators report a parsing
    error where the library may not; what is stated below of a text is
    stated of a text of the fragment. *)

Module Numeral.

Definition digit_of (c : ascii) : option N :=
  let n := N_of_ascii c in
  if ((48 <=? n) && (n <=? 57))%N then Some (n - 48)%N else None.

(** Reads the leading digits of [s]: their value after [acc], how many
    there were, and the rest of the text. *)
Fixpoint scan_digits (s : string) (acc : N) (n : nat) : N * nat * string :=
  match s with
  | String c s' =>
      match digit_of c with
      | Some d => scan_digits s' (10 * acc + d)%N (S n)
      | None => (acc, n, s)
      end
  | EmptyString => (acc, n, s)
  end.

Definition strip_sign (s : string) : bool * string :=
  match s with
  | String "-" s' => (true, s')
  | String "+" s' => (false, s')
  | _ => (false, s)
  end.

(** sign, digits *)
Definition parse_int (s : string) : option Z :=
  let (neg, s1) := strip_sign s in
  match scan_digits s1 0 0 with
  | (m, S _, EmptyString) => Some (if neg then - Z.of_N m else Z.of_N m)
  | _ => None
  end.

(** sign, digits, optional point and digits; at least one digit.  The
    result is the sign, the digits read as one integer and the number of
    digits after the point. *)
Definition parse_decimal (s : string) : option (bool * N * nat) :=
  let (neg, s1) := strip_sign s in
  match scan_digits s1 0 0 with
  | (m, S _, EmptyString) => Some (neg, m, O)
  | (m, ni, String "." s2) =>
      match scan_digits s2 m 0 with
      | (m', nf, EmptyString) =>
          match (ni + nf)%nat with
          | O => None
          | S _ => Some (neg, m', nf)
          end
      | _ => None
      end
  | _ => None
  end.

Definition parse_float (s : string) : option Py.float :=
  match parse_decimal s with
  | Some (neg, m, k) => Some (Py.float_of_decimal neg m k)
  | None => None
  end.

Definition lower (c : ascii) : ascii :=
  let n := N_of_ascii c in
  if ((65 <=? n) && (n <=? 90))%N then ascii_of_N (n + 32) else c.

Fixpoint lowercase (s : string) : string :=
  match s with
  | EmptyString => EmptyString
  | String c s' => String (lower c) (lowercase s')
  end.

Definition mem (s : string) (l : list string) : bool :=
  existsb (String.eqb s) l.

Definition parse_bool (s : string) : option bool :=
  let t := lowercase s in
  if mem t ["0"; "off"; "f"; "false"; "n"; "no"] then Some false
  else if mem t ["1"; "on"; "t"; "true"; "y"; "yes"] then Some true
  else None.

End Numeral.

(** ** The schema classes (section 2 of [app.py]) *)

Record LineItem : Type := {
  description : string;
  quantity : Py.float;
  unit_price : Py.float;
  total : Py.float
}.

Record RiskAssessment : Type := {
  is_math_correct : bool;
  flagged_issues : list string;
  fraud_score : Z
}.

Record InvoiceExtraction : Type := {
  vendor_name : string;
  invoice_date : string;
  invoice_number : string;
  line_items : list LineItem;
  subtotal : Py.float;
  tax_amount : Py.float;
  grand_total : Py.float;
  currency : string;
  risk_assessment : RiskAssessment
}.

(** The number-typed fields of a line item, by name. *)
Definition number_field (name : string) (li : LineItem) : option Py.float :=
  if String.eqb name "quantity" then Some (quantity li)
  else if String.eqb name "unit_price" then Some (unit_price li)
  else if String.eqb name "total" then Some (total li)
  else None.

(** ** Validation of a [BaseModel]

    The classes declare their fields with bare annotations and
    [Field(description=...)]: no bound, pattern or length, no strict mode, no
    model configuration.  Each field is therefore validated by its type alone,
    in the validator's default (lax) mode, and keys that are not fields are
    ignored.  All errors are collected, each with the path of the input it
    is about. *)

Inductive loc_item : Type :=
| Key (name : string)
| Idx (i : nat).

Inductive error_type : Type :=
| missing
| string_type
| float_type
| float_parsing
| int_type
| int_parsing
| int_from_float
| finite_number
| bool_type
| bool_parsing
| int_parsing_size
| list_type
| model_type.

Record ErrorDetails : Type := {
  err_type : error_type;
  err_loc : list loc_item
}.

Inductive vres (A : Type) : Type :=
| Valid (a : A)
| Invalid (errors : list ErrorDetails).
Arguments Valid {A} a.
Arguments Invalid {A} errors.

Definition fail {A : Type} (t : error_type) : vres A :=
  Invalid [{| err_type := t; err_loc := [] |}].

Definition vmap {A B : Type} (f : A -> B) (r : vres A) : vres B :=
  match r with
  | Valid a => Valid (f a)
  | Invalid e => Invalid e
  end.

(** Both sides are validated; the errors of both are kept, in order. *)
Definition vap {A B : Type} (rf : vres (A -> B)) (ra : vres A) : vres B :=
  match rf, ra with
  | Valid f, Valid a => Valid (f a)
  | Valid _, Invalid e => Invalid e
  | Invalid e, Valid _ => Invalid e
  | Invalid e1, Invalid e2 => Invalid (e1 ++ e2)
  end.

Declare Scope vres_scope.
Delimit Scope vres_scope with vres.
Notation "f <$> r" := (vmap f r) (at level 61, left associativity) : vres_scope.
Notation "rf <*> ra" := (vap rf ra) (at level 61, left associativity) : vres_scope.

Definition under (i : loc_item) (e : ErrorDetails) : ErrorDetails :=
  {| err_type := err_type e; err_loc := i :: err_loc e |}.

Definition at_loc {A : Type} (i : loc_item) (r : vres A) : vres A :=
  match r with
  | Valid a => Valid a
  | Invalid e => Invalid (map (under i) e)
  end.

(** The errors of a result. *)
Definition errors_of {A : Type} (r : vres A) : list ErrorDetails :=
  match r with
  | Valid _ => []
  | Invalid e => e
  end.

(** An integer read from a float has to lie within 64 bits. *)
Definition sized (z : Z) : vres Z :=
  if (- 2 ^ 63 <? z) && (z <? 2 ^ 63) then Valid z
  else fail int_parsing_size.

(** The integer a float is, if it is one. *)
Definition float_as_int (f : Py.float) : vres Z :=
  match f with
  | S754_zero _ => Valid 0
  | S754_finite s m e =>
      let z := if s then Z.neg m else Z.pos m in
      if 0 <=? e then sized (z * 2 ^ e)
      else if Z.pos m mod 2 ^ (- e) =? 0 then sized (z / 2 ^ (- e))
      else fail int_from_float
  | S754_infinity _ | S754_nan => fail finite_number
  end.

(** [str] *)
Definition validate_str (v : value) : vres string :=
  match v with
  | VStr s => Valid s
  | _ => fail string_type
  end.

(** [float] *)
Definition validate_float (v : value) : vres Py.float :=
  match v with
  | VFloat f => Valid f
  | VStr s =>
      match Numeral.parse_float s with
      | Some f => Valid f
      | None => fail float_parsing
      end
  | VInt z =>
      match Py.float_of_int z with
      | Some f => Valid f
      | None => fail float_type
      end
  | VBool b => Valid (Py.float_of_bool b)
  | _ => fail float_type
  end.

(** [int] *)
Definition validate_int (v : value) : vres Z :=
  match v with
  | VInt z => Valid z
  | VBool b => Valid (if b then 1 else 0)
  | VStr s =>
      match Numeral.parse_int s with
      | Some z => Valid z
      | None => fail int_parsing
      end
  | VFloat f => float_as_int f
  | _ => fail int_type
  end.

Definition int_as_bool (z : Z) : vres bool :=
  if z =? 0 then Valid false
  else if z =? 1 then Valid true
  else fail bool_parsing.

(** [bool] *)
Definition validate_bool (v : value) : vres bool :=
  match v with
  | VBool b => Valid b
  | VStr s =>
      match Numeral.parse_bool s with
      | Some b => Valid b
      | None => fail bool_parsing
      end
  | VInt z => int_as_bool z
  | VFloat f =>
      match float_as_int f with
      | Valid z => int_as_bool z
      | Invalid _ => fail bool_type
      end
  | _ => fail bool_type
  end.

Fixpoint validate_items {A : Type} (item : value -> vres A)
    (l : list value) (i : nat) : vres (list A) :=
  match l with
  | [] => Valid []
  | v :: l' =>
      (cons <$> at_loc (Idx i) (item v) <*> validate_items item l' (S i))%vres
  end.

(** [List[A]] *)
Definition validate_list {A : Type} (item : value -> vres A) (v : value)
    : vres (list A) :=
  match v with
  | VList l => validate_items item l 0
  | _ => fail list_type
  end.

(** A required field: looked up by name, validated, errors put under it. *)
Definition field {A : Type} (name : string) (validator : value -> vres A)
    (d : dict) : vres A :=
  match dict_get d name with
  | Some v => at_loc (Key name) (validator v)
  | None => at_loc (Key name) (fail missing)
  end.

(** A nested model field takes a [dict]. *)
Definition validate_model {A : Type} (fields : dict -> vres A) (v : value)
    : vres A :=
  match v with
  | VDict d => fields d
  | _ => fail model_type
  end.

Definition LineItem_fields (d : dict) : vres LineItem :=
  (Build_LineItem
     <$> field "description" validate_str d
     <*> field "quantity" validate_float d
     <*> field "unit_price" validate_float d
     <*> field "total" validate_float d)%vres.

Definition RiskAssessment_fields (d : dict) : vres RiskAssessment :=
  (Build_RiskAssessment
     <$> field "is_math_correct" validate_bool d
     <*> field "flagged_issues" (validate_list validate_str) d
     <*> field "fraud_score" validate_int d)%vres.

Definition InvoiceExtraction_fields (d : dict) : vres InvoiceExtraction :=
  (Build_InvoiceExtraction
     <$> field "vendor_name" validate_str d
     <*> field "invoice_date" validate_str d
     <*> field "invoice_number" validate_str d
     <*> field "line_items"
           (validate_list (validate_model LineItem_fields)) d
     <*> field "subtotal" validate_float d
     <*> field "tax_amount" validate_float d
     <*> field "grand_total" validate_float d
     <*> field "currency" validate_str d
     <*> field "risk_assessment" (validate_model RiskAssessment_fields) d)%vres.

(** ** Effects: exceptions, the SDKs, the page

    A computation runs in a [World] that records the outbound SDK calls and
    the messages shown with [st.error]; it ends with a value or with a raised
    exception. *)

(** How a provider SDK call can fail, by the classes the specification
    sorts such failures into. *)
Inductive AdapterError : Type :=
| Unauthorized
| RateLimited
| Timeout
| Unreachable
| UnexpectedResponseShape.

Inductive exn : Type :=
| SdkError (kind : AdapterError)
| JSONDecodeError
| TypeError
| ValidationError (errors : list ErrorDetails)
| OtherError (text : string).

Inductive outcome (A : Type) : Type :=
| Raises (e : exn)
| Returns (a : A).
Arguments Raises {A} e.
Arguments Returns {A} a.

(** An outbound call, with what the source passes to it. *)
Inductive Call : Type :=
| Gemini_generate_content (api_key model prompt : string)
| OpenAI_parse (api_key model system user : string)
| Anthropic_messages_create (api_key model : string) (max_tokens : Z)
                            (system user : string)
| Groq_create (api_key model system user : string).

(** What [st.error] shows: a literal text, or an f-string ending in an
    exception. *)
Inductive message : Type :=
| Literal (text : string)
| Formatted (prefix : string) (e : exn).

Record World : Type := {
  calls : list Call;
  shown : list message
}.

Definition empty_world : World := {| calls := []; shown := [] |}.

Definition M (A : Type) : Type := World -> outcome A * World.

Definition ret {A : Type} (a : A) : M A := fun w => (Returns a, w).

Definition bind {A B : Type} (c : M A) (k : A -> M B) : M B :=
  fun w =>
    match c w with
    | (Returns a, w') => k a w'
    | (Raises e, w') => (Raises e, w')
    end.

Definition lift {A : Type} (o : outcome A) : M A := fun w => (o, w).

(** [try: body  except Exception as e: handler e] *)
Definition try_except {A : Type} (body : M A) (handler : exn -> M A) : M A :=
  fun w =>
    match body w with
    | (Returns a, w') => (Returns a, w')
    | (Raises e, w') => handler e w'
    end.

Definition st_error (m : message) : M unit :=
  fun w => (Returns tt, {| calls := calls w; shown := shown w ++ [m] |}).

(** One outbound call: recorded, then answered by the SDK, which is told how
    many calls went out before this one.  What the source does with a library
    between building the client and reading the reply out of the response is
    one call: it raises, or it returns the reply. *)
Definition request {A : Type} (sdk : nat -> Call -> outcome A) (c : Call)
    : M A :=
  fun w =>
    (sdk (List.length (calls w)) c,
     {| calls := calls w ++ [c]; shown := shown w |}).

Declare Scope py_scope.
Delimit Scope py_scope with py.
Notation "x <- c ;; k" := (bind c (fun x => k))
  (at level 100, c at next level, right associativity) : py_scope.
Notation "c ;; k" := (bind c (fun _ => k))
  (at level 100, right associativity) : py_scope.

(** A reply text is represented by what [json.loads] makes of it: a value, or
    nothing when the text is not JSON. *)
Inductive reply_text : Type :=
| NotJSON
| JSON (v : value).

Definition json_loads (t : reply_text) : outcome value :=
  match t with
  | NotJSON => Raises JSONDecodeError
  | JSON v => Returns v
  end.

(** [InvoiceExtraction] called with [v] unpacked as keyword arguments:
    unpacking needs a mapping; then the fields are validated. *)
Definition InvoiceExtraction_init (v : value) : outcome InvoiceExtraction :=
  match v with
  | VDict kwargs =>
      match InvoiceExtraction_fields kwargs with
      | Valid r => Returns r
      | Invalid errors => Raises (ValidationError errors)
      end
  | _ => Raises TypeError
  end.

(** The four optional imports at the top of [app.py]: [None] when the import
    failed, else the behaviour of the library's call.  [OpenAI]'s [parse]
    hands back [message.parsed], a record or [None]; the others hand back the
    reply text. *)
Record Libraries : Type := {
  genai : option (nat -> Call -> outcome reply_text);
  OpenAI : option (nat -> Call -> outcome (option InvoiceExtraction));
  anthropic : option (nat -> Call -> outcome reply_text);
  Groq : option (nat -> Call -> outcome reply_text)
}.

(** ** Section 3 of [app.py]: the core logic *)

Inductive Page : Type :=
| mkPage (extract_text : outcome (option string)).

Definition extract_text (p : Page) : outcome (option string) :=
  match p with mkPage o => o end.

(** [pdfplumber.open(uploaded_file)]: raises, or gives the pages.  Leaving
    the [with] block closes the document, which is taken not to raise. *)
Definition UploadedFile : Type := outcome (list Page).

(** [x or str()]: the empty text for [None] and for the empty text. *)
Definition or_empty (x : option string) : string :=
  match x with
  | Some (String c s) => String c s
  | Some EmptyString | None => EmptyString
  end.

Fixpoint read_pages (pages : list Page) (text : string) : M string :=
  match pages with
  | [] => ret text
  | page :: rest =>
      (t <- lift (extract_text page) ;;
       read_pages rest (text ++ or_empty t))%py
  end.

Definition extract_text_from_pdf (uploaded_file : UploadedFile)
    : M (option string) :=
  try_except
    (pages <- lift uploaded_file ;;
     text <- read_pages pages EmptyString ;;
     ret (Some text))%py
    (fun e =>
       st_error (Formatted "Error reading PDF: " e) ;;
       ret None)%py.

(** The page has no extractable text: [extract_text] gives [None] or the
    empty text. *)
Definition no_text (p : Page) : Prop :=
  extract_text p = Returns None \/ extract_text p = Returns (Some EmptyString).

Definition page_raises (p : Page) : bool :=
  match extract_text p with
  | Raises _ => true
  | Returns _ => false
  end.

(** Opening the document, or reading one of its pages, raises. *)
Definition reading_raises (f : UploadedFile) : bool :=
  match f with
  | Raises _ => true
  | Returns pages => existsb page_raises pages
  end.

Definition dquote : string := String (ascii_of_nat 34) EmptyString.
Definition newline : string := String (ascii_of_nat 10) EmptyString.

Definition system_instruction : string :=
  String.concat dquote
    ["
    You are an expert forensic accountant AI. 
    1. Extract invoice data from the text provided. 
    2. Strictly validate the math (Quantity * Unit Price = Total). 
    3. Flag any discrepancies, missing details, or suspicious formatting in the 'risk_assessment'.
    4. Calculate a 'fraud_score' (0-100).
    
    Return pure JSON strictly matching this schema:
    {
        "; "vendor_name"; ": "; "...";
     ",
        "; "invoice_date"; ": "; "YYYY-MM-DD";
     ",
        "; "invoice_number"; ": "; "...";
     ",
        "; "line_items"; ": [{"; "description";
     ": "; "..."; ", "; "quantity";
     ": 0.0, "; "unit_price"; ": 0.0, "; "total";
     ": 0.0}],
        "; "subtotal"; ": 0.0,
        "; "tax_amount";
     ": 0.0,
        "; "grand_total"; ": 0.0,
        "; "currency";
     ": "; "USD"; ",
        "; "risk_assessment";
     ": {
            "; "is_math_correct"; ": true,
            "; "flagged_issues";
     ": ["; "..."; "],
            "; "fraud_score";
     ": 0
        }
    }
    "].

Definition analyze_invoice (lib : Libraries)
    (provider api_key text_content : string)
    : M (option InvoiceExtraction) :=
  try_except
    (if String.eqb provider "Google Gemini" then
       match genai lib with
       | None =>
           st_error (Literal "Library `google-generativeai` not installed.") ;;
           ret None
       | Some generate_content =>
           response <- request generate_content
             (Gemini_generate_content api_key "gemini-1.5-flash"
                (system_instruction ++ newline ++ newline ++ "INVOICE TEXT:"
                   ++ newline ++ text_content)) ;;
           v <- lift (json_loads response) ;;
           r <- lift (InvoiceExtraction_init v) ;;
           ret (Some r)
       end
     else if String.eqb provider "OpenAI" then
       match OpenAI lib with
       | None =>
           st_error (Literal "Library `openai` not installed.") ;;
           ret None
       | Some parse =>
           request parse
             (OpenAI_parse api_key "gpt-4o-2024-08-06"
                system_instruction text_content)
       end
     else if String.eqb provider "Anthropic (Claude)" then
       match anthropic lib with
       | None =>
           st_error (Literal "Library `anthropic` not installed.") ;;
           ret None
       | Some create =>
           message <- request create
             (Anthropic_messages_create api_key "claude-3-5-sonnet-20240620"
                4096 system_instruction text_content) ;;
           v <- lift (json_loads message) ;;
           r <- lift (InvoiceExtraction_init v) ;;
           ret (Some r)
       end
     else if String.eqb provider "Groq (Llama 3)" then
       match Groq lib with
       | None =>
           st_error (Literal "Library `groq` not installed.") ;;
           ret None
       | Some create =>
           completion <- request create
             (Groq_create api_key "llama3-70b-8192"
                (system_instruction ++ " RETURN ONLY JSON.") text_content) ;;
           v <- lift (json_loads completion) ;;
           r <- lift (InvoiceExtraction_init v) ;;
           ret (Some r)
       end
     else ret None)%py
    (fun e =>
       st_error (Formatted "Analysis Failed: " e) ;;
       ret None)%py.

(** ** Serialisation of a record

    [model_dump_json] writes the record as JSON text, in which a float that
    is infinite or NaN is written [null] (the serialiser's default); it
    raises when a text of the record cannot be encoded.  [record_json] is
    the value [json.loads] reads back from the text written, and
    [dump_json_loads] is the two steps together, with no value when either
    raises. *)

Definition RiskAssessment_dump (ra : RiskAssessment) : value :=
  VDict [("is_math_correct", VBool (is_math_correct ra));
         ("flagged_issues", VList (map VStr (flagged_issues ra)));
         ("fraud_score", VInt (fraud_score ra))].

(** A float as JSON text and back. *)
Definition float_json (f : Py.float) : value :=
  if Py.isfinite f then VFloat f else VNone.

Definition LineItem_json (li : LineItem) : value :=
  VDict [("description", VStr (description li));
         ("quantity", float_json (quantity li));
         ("unit_price", float_json (unit_price li));
         ("total", float_json (total li))].

Definition record_json (r : InvoiceExtraction) : value :=
  VDict [("vendor_name", VStr (vendor_name r));
         ("invoice_date", VStr (invoice_date r));
         ("invoice_number", VStr (invoice_number r));
         ("line_items", VList (map LineItem_json (line_items r)));
         ("subtotal", float_json (subtotal r));
         ("tax_amount", float_json (tax_amount r));
         ("grand_total", float_json (grand_total r));
         ("currency", VStr (currency r));
         ("risk_assessment", RiskAssessment_dump (risk_assessment r))].

Definition LineItem_finite (li : LineItem) : bool :=
  Py.isfinite (quantity li) && Py.isfinite (unit_price li)
  && Py.isfinite (total li).

Definition all_finite (r : InvoiceExtraction) : bool :=
  forallb LineItem_finite (line_items r)
  && Py.isfinite (subtotal r) && Py.isfinite (tax_amount r)
  && Py.isfinite (grand_total r).

(** Every text of the record can be encoded. *)
Definition all_encodable (r : InvoiceExtraction) : bool :=
  encodable (vendor_name r) && encodable (invoice_date r)
  && encodable (invoice_number r)
  && forallb (fun li => encodable (description li)) (line_items r)
  && encodable (currency r)
  && forallb encodable (flagged_issues (risk_assessment r)).

(** [json.loads(r.model_dump_json())]: [None] when serialising raises (a
    text that cannot be encoded) or reading back does (the score written
    with more digits than an [int] is read from). *)
Definition dump_json_loads (r : InvoiceExtraction) : option value :=
  if all_encodable r && readable_int (fraud_score (risk_assessment r))
  then Some (record_json r)
  else None.

(** ** The run seen from outside

    Which library a provider name selects, and the one call the source sends
    to it. *)

Definition text_sdk (lib : Libraries) (provider : string)
    : option (nat -> Call -> outcome reply_text) :=
  if String.eqb provider "Google Gemini" then genai lib
  else if String.eqb provider "Anthropic (Claude)" then anthropic lib
  else if String.eqb provider "Groq (Llama 3)" then Groq lib
  else None.

Definition outbound (provider api_key text_content : string) : Call :=
  if String.eqb provider "Google Gemini" then
    Gemini_generate_content api_key "gemini-1.5-flash"
      (system_instruction ++ newline ++ newline ++ "INVOICE TEXT:"
         ++ newline ++ text_content)
  else if String.eqb provider "OpenAI" then
    OpenAI_parse api_key "gpt-4o-2024-08-06" system_instruction text_content
  else if String.eqb provider "Anthropic (Claude)" then
    Anthropic_messages_create api_key "claude-3-5-sonnet-20240620" 4096
      system_instruction text_content
  else
    Groq_create api_key "llama3-70b-8192"
      (system_instruction ++ " RETURN ONLY JSON.") text_content.

Definition sent (w : World) (c : Call) : World :=
  {| calls := calls w ++ [c]; shown := shown w |}.

Definition showing (w : World) (m : message) : World :=
  {| calls := calls w; shown := shown w ++ [m] |}.

Section Run.

Variable lib : Libraries.
Variables provider api_key text_content : string.
Variable w : World.

(** The provider's answer to the call of this run. *)
Definition answers {A : Type} (sdk : nat -> Call -> outcome A)
    (o : outcome A) : Prop :=
  sdk (List.length (calls w)) (outbound provider api_key text_content) = o.

(** The backend made the record [r]: its reply text validated into it, or
    [OpenAI]'s [parse] handed it back. *)
Inductive delivered (r : InvoiceExtraction) : Prop :=
| delivered_text sdk v :
    text_sdk lib provider = Some sdk ->
    answers sdk (Returns (JSON v)) ->
    InvoiceExtraction_init v = Returns r ->
    delivered r
| delivered_parsed parse :
    provider = "OpenAI" ->
    OpenAI lib = Some parse ->
    answers parse (Returns (Some r)) ->
    delivered r.

(** The run failed with [e]: the provider call raised it, the reply was not
    JSON, or the reply did not validate. *)
Inductive failed (e : exn) : Prop :=
| failed_text_call sdk :
    text_sdk lib provider = Some sdk ->
    answers sdk (Raises e) ->
    failed e
| failed_parse_call parse :
    provider = "OpenAI" ->
    OpenAI lib = Some parse ->
    answers parse (Raises e) ->
    failed e
| failed_json sdk :
    text_sdk lib provider = Some sdk ->
    answers sdk (Returns NotJSON) ->
    e = JSONDecodeError ->
    failed e
| failed_validation sdk v :
    text_sdk lib provider = Some sdk ->
    answers sdk (Returns (JSON v)) ->
    InvoiceExtraction_init v = Raises e ->
    failed e.

(** The provider call of this run raised [e]. *)
Definition call_raised (e : exn) : Prop :=
  (exists sdk, text_sdk lib provider = Some sdk /\ answers sdk (Raises e))
  \/ (exists parse, provider = "OpenAI" /\ OpenAI lib = Some parse
                    /\ answers parse (Raises e)).

End Run.

(** ** What the specification speaks of

    The predicates of the Consistency Checker (steps 1 to 4 of its algorithm)
    and the error value of the Orchestrator, written from the specification's
    words; they are the vocabulary of the properties below, the source has
    no counterpart of them. *)

Module Spec.

(** epsilon = 0.01 *)
Definition epsilon : Py.float := Py.float_of_decimal false 1 2.

(** the configured floor, 40 *)
Definition floor : Z := 40.

Definition beyond_epsilon (expected reported : Py.float) : bool :=
  Py.flt epsilon (Py.fabs (Py.fsub expected reported)).

(** Step 1: [abs(quantity * unit_price - total) > epsilon]. *)
Definition line_mismatch (li : LineItem) : bool :=
  beyond_epsilon (Py.fmul (quantity li) (unit_price li)) (total li).

Definition has_line_mismatch (r : InvoiceExtraction) : bool :=
  existsb line_mismatch (line_items r).

(** Step 2: the sum of the line totals against [subtotal]. *)
Definition expected_subtotal (r : InvoiceExtraction) : Py.float :=
  fold_left (fun acc li => Py.fadd acc (total li))
            (line_items r) (S754_zero false).

Definition subtotal_mismatch (r : InvoiceExtraction) : bool :=
  beyond_epsilon (expected_subtotal r) (subtotal r).

(** Step 3: [subtotal + tax_amount] against [grand_total]. *)
Definition grand_total_mismatch (r : InvoiceExtraction) : bool :=
  beyond_epsilon (Py.fadd (subtotal r) (tax_amount r)) (grand_total r).

(** Step 4. *)
Definition computed_is_math_correct (r : InvoiceExtraction) : bool :=
  negb (has_line_mismatch r || subtotal_mismatch r
        || grand_total_mismatch r).

(** The final record reports the mismatch found in the validated one. *)
Definition reports_mismatch (validated final : InvoiceExtraction) : Prop :=
  is_math_correct (risk_assessment final) = false
  /\ exists issue,
       flagged_issues (risk_assessment final)
       = (flagged_issues (risk_assessment validated) ++ [issue])%list.

Definition in_range (score : Z) : Prop := 0 <= score <= 100.

Inductive Stage : Type := Adapter | Validation.

Inductive Kind : Type :=
| OfAdapter (k : AdapterError)
| MalformedJSON
| SchemaViolation (errors : list ErrorDetails).

Record PipelineError : Type := { stage : Stage; kind : Kind }.

End Spec.

(** ** The replies of the end-to-end scenarios *)

Module Scenario.

Definition num (m : N) (k : nat) : Py.float := Py.float_of_decimal false m k.

Definition line (quantity total : value) : dict :=
  [("description", VStr "Widget");
   ("quantity", quantity);
   ("unit_price", VFloat (num 100 1));
   ("total", total)].

Definition risk (is_math_correct : bool) (fraud_score : Z) : dict :=
  [("is_math_correct", VBool is_math_correct);
   ("flagged_issues", VList []);
   ("fraud_score", VInt fraud_score)].

Definition fields (quantity total : value) (currency : string)
    (is_math_correct : bool) (fraud_score : Z) : dict :=
  [("vendor_name", VStr "Acme");
   ("invoice_date", VStr "2024-01-05");
   ("invoice_number", VStr "INV-1");
   ("line_items", VList [VDict (line quantity total)]);
   ("subtotal", VFloat (num 200 1));
   ("tax_amount", VFloat (num 20 1));
   ("grand_total", VFloat (num 220 1));
   ("currency", VStr currency);
   ("risk_assessment", VDict (risk is_math_correct fraud_score))].

Definition reply (quantity total : value) (currency : string)
    (is_math_correct : bool) (fraud_score : Z) : value :=
  VDict (fields quantity total currency is_math_correct fraud_score).

Definition record (quantity total : Py.float) (currency : string)
    (is_math_correct : bool) (fraud_score : Z) : InvoiceExtraction :=
  {| vendor_name := "Acme";
     invoice_date := "2024-01-05";
     invoice_number := "INV-1";
     line_items := [{| description := "Widget";
                       quantity := quantity;
                       unit_price := num 100 1;
                       total := total |}];
     subtotal := num 200 1;
     tax_amount := num 20 1;
     grand_total := num 220 1;
     currency := currency;
     risk_assessment := {| is_math_correct := is_math_correct;
                           flagged_issues := [];
                           fraud_score := fraud_score |} |}.

(** Scenario A: the arithmetic holds. *)
Definition reply_A : value :=
  reply (VInt 2) (VFloat (num 200 1)) "USD" true 5.
Definition record_A : InvoiceExtraction :=
  record (num 2 0) (num 200 1) "USD" true 5.

(** Scenario B: the line total is 25.0, the backend reports correct
    arithmetic and a score of 5. *)
Definition reply_B : value :=
  reply (VInt 2) (VFloat (num 250 1)) "USD" true 5.
Definition record_B : InvoiceExtraction :=
  record (num 2 0) (num 250 1) "USD" true 5.

(** A fraud score of 150. *)
Definition reply_score_150 : value :=
  reply (VInt 2) (VFloat (num 200 1)) "USD" true 150.

(** The quantity written as text. *)
Definition reply_quantity_text : value :=
  reply (VStr "12.50") (VFloat (num 200 1)) "USD" true 5.

(** A currency of two letters. *)
Definition reply_currency_US : value :=
  reply (VInt 2) (VFloat (num 200 1)) "US" true 5.






(** A reply with two line items, a widget and then a gadget. *)
Definition gadget : dict :=
  [("description", VStr "Gadget");
   ("quantity", VInt 1);
   ("unit_price", VFloat (num 55 1));
   ("total", VFloat (num 55 1))].

Definition two_lines : list value :=
  [VDict (line (VInt 2) (VFloat (num 200 1))); VDict gadget].

Definition fields_two_lines : dict :=
  [("vendor_name", VStr "Acme");
   ("invoice_date", VStr "2024-01-05");
   ("invoice_number", VStr "INV-2");
   ("line_items", VList two_lines);
   ("subtotal", VFloat (num 255 1));
   ("tax_amount", VFloat (num 20 1));
   ("grand_total", VFloat (num 275 1));
   ("currency", VStr "USD");
   ("risk_assessment", VDict (risk true 5))].

Definition record_two_lines : InvoiceExtraction :=
  {| vendor_name := "Acme";
     invoice_date := "2024-01-05";
     invoice_number := "INV-2";
     line_items := [{| description := "Widget";
                       quantity := num 2 0;
                       unit_price := num 100 1;
                       total := num 200 1 |};
                    {| description := "Gadget";
                       quantity := num 1 0;
                       unit_price := num 55 1;
                       total := num 55 1 |}];
     subtotal := num 255 1;
     tax_amount := num 20 1;
     grand_total := num 275 1;
     currency := "USD";
     risk_assessment := {| is_math_correct := true;
                           flagged_issues := [];
                           fraud_score := 5 |} |}.

(** Libraries in which only [genai] is installed and answers [o] whatever
    the call. *)
Definition only_genai (o : outcome reply_text) : Libraries :=
  {| genai := Some (fun _ _ => o);
     OpenAI := None; anthropic := None; Groq := None |}.


(** A double of [genai] that times out on the first call and answers
    scenario A on any later one. *)
Definition timeout_once : Libraries :=
  {| genai := Some (fun n _ =>
                      match n with
                      | O => Raises (SdkError Timeout)
                      | S _ => Returns (JSON reply_A)
                      end);
     OpenAI := None; anthropic := None; Groq := None |}.

End Scenario.

(** ** The ways a run of [analyze_invoice] ends *)

Definition recognized (provider : string) : bool :=
  String.eqb provider "Google Gemini" || String.eqb provider "OpenAI"
  || String.eqb provider "Anthropic (Claude)"
  || String.eqb provider "Groq (Llama 3)".

Definition present {A : Type} (o : option A) : bool :=
  match o with
  | Some _ => true
  | None => false
  end.

(** The import a provider name needs went through. *)
Definition installed (lib : Libraries) (provider : string) : bool :=
  if String.eqb provider "Google Gemini" then present (genai lib)
  else if String.eqb provider "OpenAI" then present (OpenAI lib)
  else if String.eqb provider "Anthropic (Claude)" then present (anthropic lib)
  else if String.eqb provider "Groq (Llama 3)" then present (Groq lib)
  else false.

(** The package named in the message shown when it did not. *)
Definition package (provider : string) : string :=
  if String.eqb provider "Google Gemini" then "google-generativeai"
  else if String.eqb provider "OpenAI" then "openai"
  else if String.eqb provider "Anthropic (Claude)" then "anthropic"
  else "groq".

Definition not_installed (provider : string) : message :=
  Literal ("Library `" ++ package provider ++ "` not installed.").

(** [OpenAI]'s [parse] answered, with [message.parsed] being [None]. *)
Definition parsed_nothing (lib : Libraries)
    (provider api_key text_content : string) (w : World) : Prop :=
  exists parse,
    provider = "OpenAI" /\ OpenAI lib = Some parse
    /\ answers provider api_key text_content w parse (Returns None).

Inductive ending (lib : Libraries) (provider api_key text_content : string)
    (w : World) : outcome (option InvoiceExtraction) * World -> Prop :=
| end_unknown :
    recognized provider = false ->
    ending lib provider api_key text_content w (Returns None, w)
| end_not_installed :
    recognized provider = true ->
    installed lib provider = false ->
    ending lib provider api_key text_content w
           (Returns None, showing w (not_installed provider))
| end_delivered r :
    delivered lib provider api_key text_content w r ->
    ending lib provider api_key text_content w
           (Returns (Some r), sent w (outbound provider api_key text_content))
| end_failed e :
    failed lib provider api_key text_content w e ->
    ending lib provider api_key text_content w
           (Returns None,
            showing (sent w (outbound provider api_key text_content))
                    (Formatted "Analysis Failed: " e))
| end_parsed_nothing :
    parsed_nothing lib provider api_key text_content w ->
    ending lib provider api_key text_content w
           (Returns None, sent w (outbound provider api_key text_content)).

(** ** The field names of the schema classes *)

Definition LineItem_names : list string :=
  ["description"; "quantity"; "unit_price"; "total"].

Definition RiskAssessment_names : list string :=
  ["is_math_correct"; "flagged_issues"; "fraud_score"].

Definition InvoiceExtraction_names : list string :=
  ["vendor_name"; "invoice_date"; "invoice_number"; "line_items"; "subtotal";
   "tax_amount"; "grand_total"; "currency"; "risk_assessment"].

Definition missing_at (l : list loc_item) : ErrorDetails :=
  {| err_type := missing; err_loc := l |}.

(** A result that is invalid says why. *)
Definition founded {A : Type} (r : vres A) : Prop := r <> Invalid [].

(** ** The text of a document *)

(** What a page adds to the text. *)
Definition page_text (p : Page) : string :=
  match extract_text p with
  | Returns (Some t) => t
  | Returns None | Raises _ => EmptyString
  end.

Definition document_text (pages : list Page) : string :=
  fold_right append EmptyString (map page_text pages).

Fixpoint first_page_exception (pages : list Page) : option exn :=
  match pages with
  | [] => None
  | p :: rest =>
      match extract_text p with
      | Raises e => Some e
      | Returns _ => first_page_exception rest
      end
  end.

(** The exception that opening the document, or else the first page that
    raises one, raises. *)
Definition first_exception (f : UploadedFile) : option exn :=
  match f with
  | Raises e => Some e
  | Returns pages => first_page_exception pages
  end.

(** ** Section 4 of [app.py]: the page, from the upload to the analysis

    One run of the script below the file uploader (lines 172 to 202), given
    the state of its widgets: the provider and the key of the side bar, the
    uploaded file if any, and whether the button is pressed.  The warning and
    the error of the button's guards are recorded; the widgets that only lay
    out or display are not.  The value is the record that the result block
    (lines 203 to 245) goes on to display, if any. *)

Record Screen : Type := {
  world : World;
  warnings : list string
}.

Definition UI (A : Type) : Type := Screen -> outcome A * Screen.

Definition ui_ret {A : Type} (a : A) : UI A := fun s => (Returns a, s).

Definition ui_bind {A B : Type} (c : UI A) (k : A -> UI B) : UI B :=
  fun s =>
    match c s with
    | (Returns a, s') => k a s'
    | (Raises e, s') => (Raises e, s')
    end.

(** A computation of the core, run from the page. *)
Definition in_world {A : Type} (c : M A) : UI A :=
  fun s =>
    let (o, w') := c (world s) in
    (o, {| world := w'; warnings := warnings s |}).

Definition st_warning (text : string) : UI unit :=
  fun s =>
    (Returns tt, {| world := world s; warnings := warnings s ++ [text] |}).

Declare Scope ui_scope.
Delimit Scope ui_scope with ui.
Notation "x <- c ;; k" := (ui_bind c (fun x => k))
  (at level 100, c at next level, right associativity) : ui_scope.
Notation "c ;; k" := (ui_bind c (fun _ => k))
  (at level 100, right associativity) : ui_scope.

(** The body of [if st.button(...)]: a text is false when it is empty, and
    [raw_text] also when it is [None]. *)
Definition analyze_button (lib : Libraries) (provider api_key : string)
    (raw_text : option string) : UI (option InvoiceExtraction) :=
  match api_key with
  | EmptyString =>
      (st_warning ("Please provide your " ++ provider
                   ++ " API Key in the sidebar.") ;;
       ui_ret None)%ui
  | String _ _ =>
      match raw_text with
      | None | Some EmptyString =>
          (in_world
             (st_error
                (Literal "Could not read text from PDF. It might be a scanned image (OCR not supported in this demo).")) ;;
           ui_ret None)%ui
      | Some (String c t) =>
          in_world (analyze_invoice lib provider api_key (String c t))
      end
  end.

(** [if uploaded_file: ...]: the text is extracted whenever a file is there,
    the analysis runs when the button is pressed. *)
Definition page (lib : Libraries) (provider api_key : string)
    (uploaded_file : option UploadedFile) (button : bool)
    : UI (option InvoiceExtraction) :=
  match uploaded_file with
  | Some f =>
      (raw_text <- in_world (extract_text_from_pdf f) ;;
       if button then analyze_button lib provider api_key raw_text
       else ui_ret None)%ui
  | None => ui_ret None
  end.

(** * Properties *)

(** ** How a run ends *)

Ltac by_provider H :=
  unfold text_sdk in H;
  unfold answers in *; unfold analyze_invoice, outbound in *;
  repeat
    match type of H with
    | context [String.eqb ?p ?name] =>
        let E := fresh "E" in
        destruct (String.eqb p name) eqn:E;
        [ apply String.eqb_eq in E; subst p; cbn [String.eqb Ascii.eqb Bool.eqb] in *
        | ]
    end;
  try discriminate H.

Ltac run :=
  unfold answers in *;
  unfold try_except, bind, request, lift, ret, st_error, sent, showing,
    outbound in *;
  cbn [String.eqb Ascii.eqb Bool.eqb] in *.

Lemma analyze_invoice_delivered lib provider api_key text_content w r :
  delivered lib provider api_key text_content w r ->
  analyze_invoice lib provider api_key text_content w
  = (Returns (Some r), sent w (outbound provider api_key text_content)).
Proof.
  intros [sdk v Hsdk Hans Hinit | parse Hp Hlib Hans].
  - by_provider Hsdk; rewrite Hsdk; run; rewrite Hans; cbn;
      rewrite Hinit; reflexivity.
  - subst provider. unfold analyze_invoice. run.
    rewrite Hlib, Hans. reflexivity.
Qed.

Lemma analyze_invoice_failed lib provider api_key text_content w e :
  failed lib provider api_key text_content w e ->
  analyze_invoice lib provider api_key text_content w
  = (Returns None,
     showing (sent w (outbound provider api_key text_content))
             (Formatted "Analysis Failed: " e)).
Proof.
  intros [sdk Hsdk Hans | parse Hp Hlib Hans | sdk Hsdk Hans He
         | sdk v Hsdk Hans Hinit].
  - by_provider Hsdk; rewrite Hsdk; run; rewrite Hans; reflexivity.
  - subst provider. unfold analyze_invoice. run.
    rewrite Hlib, Hans. reflexivity.
  - subst e. by_provider Hsdk; rewrite Hsdk; run; rewrite Hans; reflexivity.
  - by_provider Hsdk; rewrite Hsdk; run; rewrite Hans; cbn;
      rewrite Hinit; reflexivity.
Qed.

(** ** Where validation errors come from *)

Lemma errors_of_vmap {A B : Type} (f : A -> B) (r : vres A) :
  errors_of (vmap f r) = errors_of r.
Proof. destruct r; reflexivity. Qed.

Lemma errors_of_vap {A B : Type} (rf : vres (A -> B)) (ra : vres A) :
  errors_of (vap rf ra) = (errors_of rf ++ errors_of ra)%list.
Proof.
  destruct rf, ra; cbn; auto using app_nil_r.
Qed.

Lemma errors_of_at_loc {A : Type} (i : loc_item) (r : vres A) :
  errors_of (at_loc i r) = map (under i) (errors_of r).
Proof. destruct r; reflexivity. Qed.

Lemma vap_valid {A B : Type} (rf : vres (A -> B)) (ra : vres A) (b : B) :
  vap rf ra = Valid b ->
  exists f a, rf = Valid f /\ ra = Valid a /\ b = f a.
Proof.
  destruct rf, ra; cbn; intros H; try discriminate.
  injection H as <-. eauto.
Qed.

Lemma vmap_valid {A B : Type} (f : A -> B) (r : vres A) (b : B) :
  vmap f r = Valid b -> exists a, r = Valid a /\ b = f a.
Proof.
  destruct r; cbn; intros H; try discriminate.
  injection H as <-. eauto.
Qed.

Lemma at_loc_valid {A : Type} (i : loc_item) (r : vres A) (a : A) :
  at_loc i r = Valid a <-> r = Valid a.
Proof. destruct r; cbn; split; congruence. Qed.

(** An error of a field lies under the field's name. *)
Lemma field_error_loc {A : Type} name (validator : value -> vres A) d e :
  In e (errors_of (field name validator d)) ->
  exists l, err_loc e = Key name :: l.
Proof.
  unfold field. destruct (dict_get d name);
    rewrite errors_of_at_loc, in_map_iff; intros (e' & <- & _);
    cbn; eauto.
Qed.

(** A field that is present is valid, and has errors, as its value is. *)
Lemma field_present {A : Type} name (validator : value -> vres A) d v :
  dict_get d name = Some v ->
  field name validator d = at_loc (Key name) (validator v).
Proof. unfold field. intros ->. reflexivity. Qed.

Lemma validate_items_valid {A : Type} (item : value -> vres A) l :
  forall k rs,
    validate_items item l k = Valid rs ->
    Forall2 (fun v r => item v = Valid r) l rs.
Proof.
  induction l as [| v l IH]; cbn; intros k rs H.
  - injection H as <-. constructor.
  - apply vap_valid in H as (f & rs' & Hf & Hrs & ->).
    apply vmap_valid in Hf as (r & Hr & ->).
    apply at_loc_valid in Hr.
    constructor; eauto.
Qed.

Lemma validate_items_errors {A : Type} (item : value -> vres A) l :
  forall k e,
    In e (errors_of (validate_items item l k)) ->
    exists i v e',
      nth_error l i = Some v /\ In e' (errors_of (item v))
      /\ e = under (Idx (k + i)) e'.
Proof.
  induction l as [| v l IH]; cbn; intros k e H.
  - contradiction.
  - rewrite errors_of_vap, errors_of_vmap, errors_of_at_loc in H.
    apply in_app_or in H as [H | H].
    + apply in_map_iff in H as (e' & <- & He').
      exists O, v, e'. rewrite Nat.add_0_r. auto.
    + apply IH in H as (i & v' & e' & Hi & He' & ->).
      exists (S i), v', e'. rewrite <- plus_n_Sm. auto.
Qed.

Lemma Forall2_nth_error {A B : Type} (P : A -> B -> Prop) l l' :
  Forall2 P l l' ->
  forall i a, nth_error l i = Some a ->
              exists b, nth_error l' i = Some b /\ P a b.
Proof.
  induction 1 as [| a0 b0 l l' H0 _ IH]; intros [| i] a Hi; cbn in *;
    try discriminate.
  - injection Hi as <-. eauto.
  - eauto.
Qed.

(** The fields of a record that validated are the values its fields
    validated into. *)
Lemma LineItem_fields_valid d li :
  LineItem_fields d = Valid li ->
  field "description" validate_str d = Valid (description li)
  /\ field "quantity" validate_float d = Valid (quantity li)
  /\ field "unit_price" validate_float d = Valid (unit_price li)
  /\ field "total" validate_float d = Valid (total li).
Proof.
  unfold LineItem_fields. intros H.
  repeat (apply vap_valid in H as (? & ? & H & ? & ->)).
  apply vmap_valid in H as (? & ? & ->).
  cbn. auto.
Qed.

Lemma RiskAssessment_fields_valid d ra :
  RiskAssessment_fields d = Valid ra ->
  field "is_math_correct" validate_bool d = Valid (is_math_correct ra)
  /\ field "flagged_issues" (validate_list validate_str) d
     = Valid (flagged_issues ra)
  /\ field "fraud_score" validate_int d = Valid (fraud_score ra).
Proof.
  unfold RiskAssessment_fields. intros H.
  repeat (apply vap_valid in H as (? & ? & H & ? & ->)).
  apply vmap_valid in H as (? & ? & ->).
  cbn. auto.
Qed.

Lemma InvoiceExtraction_fields_valid d r :
  InvoiceExtraction_fields d = Valid r ->
  field "line_items" (validate_list (validate_model LineItem_fields)) d
  = Valid (line_items r)
  /\ field "currency" validate_str d = Valid (currency r)
  /\ field "risk_assessment" (validate_model RiskAssessment_fields) d
     = Valid (risk_assessment r).
Proof.
  unfold InvoiceExtraction_fields. intros H.
  repeat (apply vap_valid in H as (? & ? & H & ? & ->)).
  apply vmap_valid in H as (? & ? & ->).
  cbn. auto.
Qed.

(** The errors of a model are those of its fields. *)
Lemma LineItem_fields_errors d e :
  In e (errors_of (LineItem_fields d)) ->
  In e (errors_of (field "description" validate_str d))
  \/ In e (errors_of (field "quantity" validate_float d))
  \/ In e (errors_of (field "unit_price" validate_float d))
  \/ In e (errors_of (field "total" validate_float d)).
Proof.
  unfold LineItem_fields.
  rewrite !errors_of_vap, errors_of_vmap, !in_app_iff. tauto.
Qed.

Lemma RiskAssessment_fields_errors d e :
  In e (errors_of (RiskAssessment_fields d)) ->
  In e (errors_of (field "is_math_correct" validate_bool d))
  \/ In e (errors_of
             (field "flagged_issues" (validate_list validate_str) d))
  \/ In e (errors_of (field "fraud_score" validate_int d)).
Proof.
  unfold RiskAssessment_fields.
  rewrite !errors_of_vap, errors_of_vmap, !in_app_iff. tauto.
Qed.

(** An error of the record lies under one of its nine field names; under
    [line_items], [currency] or [risk_assessment] it is an error of that
    field. *)
Lemma InvoiceExtraction_fields_errors d e :
  In e (errors_of (InvoiceExtraction_fields d)) ->
  In e (errors_of
          (field "line_items"
             (validate_list (validate_model LineItem_fields)) d))
  \/ In e (errors_of (field "currency" validate_str d))
  \/ In e (errors_of
             (field "risk_assessment"
                (validate_model RiskAssessment_fields) d))
  \/ exists name l,
       err_loc e = Key name :: l
       /\ name <> "line_items" /\ name <> "currency"
       /\ name <> "risk_assessment".
Proof.
  unfold InvoiceExtraction_fields.
  rewrite !errors_of_vap, errors_of_vmap, !in_app_iff.
  intros H.
  repeat match type of H with _ \/ _ => destruct H as [H | H] end;
    auto;
    apply field_error_loc in H as (l & Hl);
    do 3 right; eexists _, l; (split; [exact Hl |]);
    repeat split; discriminate.
Qed.

(** ** The scenarios, run *)

Lemma only_genai_delivers v r api_key text_content w :
  InvoiceExtraction_init v = Returns r ->
  delivered (Scenario.only_genai (Returns (JSON v)))
            "Google Gemini" api_key text_content w r.
Proof.
  intros H.
  apply (delivered_text _ _ _ _ _ _ (fun _ _ => Returns (JSON v)) v);
    [reflexivity | reflexivity | exact H].
Qed.

Example scenario_A_validates :
  InvoiceExtraction_init Scenario.reply_A = Returns Scenario.record_A.
Proof. vm_compute. reflexivity. Qed.

Example scenario_B_validates :
  InvoiceExtraction_init Scenario.reply_B = Returns Scenario.record_B.
Proof. vm_compute. reflexivity. Qed.

Example scenario_A_math :
  Spec.computed_is_math_correct Scenario.record_A = true.
Proof. vm_compute. reflexivity. Qed.

Example scenario_B_math :
  Spec.has_line_mismatch Scenario.record_B = true
  /\ Spec.computed_is_math_correct Scenario.record_B = false.
Proof. vm_compute. auto. Qed.

(** ** C1: a line mismatch and the reported [is_math_correct] *)

(** C1, as stated, fails on scenario B: the reply validates into a record
    whose only line has total 25.0 for 2 x 10.0, the backend reports
    [is_math_correct = true], and the run returns that very record, with
    [is_math_correct] still true and no issue appended. *)
Lemma C1_scenario_B_not_reconciled :
  InvoiceExtraction_init Scenario.reply_B = Returns Scenario.record_B
  /\ Spec.has_line_mismatch Scenario.record_B = true
  /\ fst (analyze_invoice
            (Scenario.only_genai (Returns (JSON Scenario.reply_B)))
            "Google Gemini" "key" "text" empty_world)
     = Returns (Some Scenario.record_B)
  /\ ~ Spec.reports_mismatch Scenario.record_B Scenario.record_B.
Proof.
  split; [| split; [| split]]; try (vm_compute; reflexivity).
  intros [H _]. vm_compute in H. discriminate H.
Qed.

(** C1 (amended): for every record the backend delivered that has a line item
    whose total differs from quantity * unit_price by more than 0.01, the run
    returns a record whose [is_math_correct] and [flagged_issues] are those
    the backend reported: nothing is recomputed and no issue is appended. *)
Theorem C1_line_mismatch_returned_as_reported
    lib provider api_key text_content w r :
  delivered lib provider api_key text_content w r ->
  Spec.has_line_mismatch r = true ->
  exists final,
    fst (analyze_invoice lib provider api_key text_content w)
    = Returns (Some final)
    /\ is_math_correct (risk_assessment final)
       = is_math_correct (risk_assessment r)
    /\ flagged_issues (risk_assessment final)
       = flagged_issues (risk_assessment r).
Proof.
  intros Hd _. exists r.
  rewrite (analyze_invoice_delivered _ _ _ _ _ _ Hd). auto.
Qed.

Lemma C1_line_mismatch_returned_as_reported_witness :
  exists final,
    fst (analyze_invoice
           (Scenario.only_genai (Returns (JSON Scenario.reply_B)))
           "Google Gemini" "key" "text" empty_world)
    = Returns (Some final)
    /\ is_math_correct (risk_assessment final) = true
    /\ flagged_issues (risk_assessment final) = [].
Proof.
  apply (C1_line_mismatch_returned_as_reported
           (Scenario.only_genai (Returns (JSON Scenario.reply_B)))
           "Google Gemini" "key" "text" empty_world Scenario.record_B).
  - apply only_genai_delivers. vm_compute. reflexivity.
  - vm_compute. reflexivity.
Defined.

(** ** C2: the floor on [fraud_score] *)

(** C2, as stated, fails on scenario B: the recomputed arithmetic is wrong,
    the backend's score is 5, and the returned record still has 5, below the
    floor of 40. *)
Lemma C2_scenario_B_score_not_raised :
  Spec.computed_is_math_correct Scenario.record_B = false
  /\ fraud_score (risk_assessment Scenario.record_B) < Spec.floor
  /\ exists final,
       fst (analyze_invoice
              (Scenario.only_genai (Returns (JSON Scenario.reply_B)))
              "Google Gemini" "key" "text" empty_world)
       = Returns (Some final)
       /\ ~ Spec.floor <= fraud_score (risk_assessment final).
Proof.
  split; [vm_compute; reflexivity |].
  split; [vm_compute; reflexivity |].
  exists Scenario.record_B.
  split; [vm_compute; reflexivity |].
  vm_compute. intros H. apply H. reflexivity.
Qed.

(** C2 (amended): for every record the backend delivered, the returned record
    carries the backend's [fraud_score] untouched; in particular, when the
    recomputed arithmetic is wrong and the score is below the floor, it stays
    below the floor. *)
Theorem C2_fraud_score_untouched lib provider api_key text_content w r :
  delivered lib provider api_key text_content w r ->
  exists final,
    fst (analyze_invoice lib provider api_key text_content w)
    = Returns (Some final)
    /\ fraud_score (risk_assessment final) = fraud_score (risk_assessment r)
    /\ (Spec.computed_is_math_correct r = false ->
        fraud_score (risk_assessment r) < Spec.floor ->
        fraud_score (risk_assessment final) < Spec.floor).
Proof.
  intros Hd. exists r.
  rewrite (analyze_invoice_delivered _ _ _ _ _ _ Hd). auto.
Qed.

Lemma C2_fraud_score_untouched_witness :
  exists final,
    fst (analyze_invoice
           (Scenario.only_genai (Returns (JSON Scenario.reply_B)))
           "Google Gemini" "key" "text" empty_world)
    = Returns (Some final)
    /\ fraud_score (risk_assessment final) = 5
    /\ (Spec.computed_is_math_correct Scenario.record_B = false ->
        fraud_score (risk_assessment Scenario.record_B) < Spec.floor ->
        fraud_score (risk_assessment final) < Spec.floor).
Proof.
  apply (C2_fraud_score_untouched
           (Scenario.only_genai (Returns (JSON Scenario.reply_B)))
           "Google Gemini" "key" "text" empty_world Scenario.record_B).
  apply only_genai_delivers. vm_compute. reflexivity.
Defined.

(** ** C3: the range of [fraud_score] *)

Lemma init_valid d r :
  InvoiceExtraction_fields d = Valid r ->
  InvoiceExtraction_init (VDict d) = Returns r.
Proof. cbn. intros ->. reflexivity. Qed.

Lemma valid_delivered lib provider api_key text_content w sdk d r :
  text_sdk lib provider = Some sdk ->
  answers provider api_key text_content w sdk (Returns (JSON (VDict d))) ->
  InvoiceExtraction_fields d = Valid r ->
  fst (analyze_invoice lib provider api_key text_content w)
  = Returns (Some r).
Proof.
  intros Hsdk Hans Hv.
  rewrite (analyze_invoice_delivered lib provider api_key text_content w r);
    [reflexivity |].
  eapply delivered_text; eauto using init_valid.
Qed.

(** C3, as stated, fails: a reply with [fraud_score] 150 validates, and the
    run returns a record whose score, 150, is outside [0,100]. *)
Lemma C3_score_150_accepted :
  exists r,
    InvoiceExtraction_init Scenario.reply_score_150 = Returns r
    /\ fst (analyze_invoice
              (Scenario.only_genai (Returns (JSON Scenario.reply_score_150)))
              "Google Gemini" "key" "text" empty_world)
       = Returns (Some r)
    /\ fraud_score (risk_assessment r) = 150
    /\ ~ Spec.in_range (fraud_score (risk_assessment r)).
Proof.
  exists (Scenario.record (Scenario.num 2 0) (Scenario.num 200 1) "USD"
                          true 150).
  repeat split; try (vm_compute; reflexivity).
  unfold Spec.in_range. cbn. lia.
Qed.

(** C3 (amended): for every backend reply whose risk_assessment.fraud_score
    is an integer, inside [0,100] or not, validation raises no error on
    fraud_score, and when the reply validates the run returns the record with
    that integer as its fraud_score, neither rejected nor clamped. *)
Theorem C3_fraud_score_any_integer
    lib provider api_key text_content w sdk d ra n :
  text_sdk lib provider = Some sdk ->
  answers provider api_key text_content w sdk (Returns (JSON (VDict d))) ->
  dict_get d "risk_assessment" = Some (VDict ra) ->
  dict_get ra "fraud_score" = Some (VInt n) ->
  (forall errors e,
      InvoiceExtraction_fields d = Invalid errors ->
      In e errors ->
      err_loc e <> [Key "risk_assessment"; Key "fraud_score"])
  /\ (forall r,
         InvoiceExtraction_fields d = Valid r ->
         fst (analyze_invoice lib provider api_key text_content w)
         = Returns (Some r)
         /\ fraud_score (risk_assessment r) = n).
Proof.
  intros Hsdk Hans Hra Hfs. split.
  - intros errors e Hinv He Hloc.
    assert (H : In e (errors_of (InvoiceExtraction_fields d)))
      by (rewrite Hinv; exact He).
    apply InvoiceExtraction_fields_errors in H
      as [H | [H | [H | (name & l & Hl & _ & _ & Hname)]]].
    + apply field_error_loc in H as (l & Hl). congruence.
    + apply field_error_loc in H as (l & Hl). congruence.
    + rewrite (field_present _ _ _ _ Hra), errors_of_at_loc in H.
      apply in_map_iff in H as (e' & <- & H). cbn in H, Hloc.
      apply RiskAssessment_fields_errors in H as [H | [H | H]].
      * apply field_error_loc in H as (l & Hl). congruence.
      * apply field_error_loc in H as (l & Hl). congruence.
      * rewrite (field_present _ _ _ _ Hfs) in H. exact H.
    + congruence.
  - intros r Hv. split; [eauto using valid_delivered |].
    apply InvoiceExtraction_fields_valid in Hv as (_ & _ & Hv).
    rewrite (field_present _ _ _ _ Hra) in Hv.
    apply at_loc_valid in Hv. cbn in Hv.
    apply RiskAssessment_fields_valid in Hv as (_ & _ & Hv).
    rewrite (field_present _ _ _ _ Hfs) in Hv. cbn in Hv. congruence.
Qed.

Lemma C3_fraud_score_any_integer_witness :
  (forall errors e,
      InvoiceExtraction_fields
        (Scenario.fields (VInt 2) (VFloat (Scenario.num 200 1)) "USD" true 150)
      = Invalid errors ->
      In e errors ->
      err_loc e <> [Key "risk_assessment"; Key "fraud_score"])
  /\ (forall r,
         InvoiceExtraction_fields
           (Scenario.fields (VInt 2) (VFloat (Scenario.num 200 1)) "USD" true
                            150)
         = Valid r ->
         fst (analyze_invoice
                (Scenario.only_genai
                   (Returns (JSON Scenario.reply_score_150)))
                "Google Gemini" "key" "text" empty_world)
         = Returns (Some r)
         /\ fraud_score (risk_assessment r) = 150).
Proof.
  apply (C3_fraud_score_any_integer
           (Scenario.only_genai (Returns (JSON Scenario.reply_score_150)))
           "Google Gemini" "key" "text" empty_world
           (fun _ _ => Returns (JSON Scenario.reply_score_150))
           (Scenario.fields (VInt 2) (VFloat (Scenario.num 200 1)) "USD" true
                            150)
           (Scenario.risk true 150) 150);
    reflexivity.
Defined.

(** ** C7: the [currency] field *)

(** C7, as stated, fails: a reply whose currency is the two letters US
    validates, and the run returns the record with that currency. *)
Lemma C7_currency_US_accepted :
  exists r,
    InvoiceExtraction_init Scenario.reply_currency_US = Returns r
    /\ fst (analyze_invoice
              (Scenario.only_genai
                 (Returns (JSON Scenario.reply_currency_US)))
              "Google Gemini" "key" "text" empty_world)
       = Returns (Some r)
    /\ currency r = "US"
    /\ String.length (currency r) <> 3%nat.
Proof.
  exists (Scenario.record (Scenario.num 2 0) (Scenario.num 200 1) "US"
                          true 5).
  repeat split; try (vm_compute; reflexivity).
  cbn. discriminate.
Qed.

(** C7 (amended): for every backend reply whose currency field is a text, of
    any length and any characters, validation raises no error on currency,
    and when the reply validates the run returns the record with that text as
    its currency. *)
Theorem C7_currency_any_text
    lib provider api_key text_content w sdk d s :
  text_sdk lib provider = Some sdk ->
  answers provider api_key text_content w sdk (Returns (JSON (VDict d))) ->
  dict_get d "currency" = Some (VStr s) ->
  (forall errors e,
      InvoiceExtraction_fields d = Invalid errors ->
      In e errors ->
      err_loc e <> [Key "currency"])
  /\ (forall r,
         InvoiceExtraction_fields d = Valid r ->
         fst (analyze_invoice lib provider api_key text_content w)
         = Returns (Some r)
         /\ currency r = s).
Proof.
  intros Hsdk Hans Hc. split.
  - intros errors e Hinv He Hloc.
    assert (H : In e (errors_of (InvoiceExtraction_fields d)))
      by (rewrite Hinv; exact He).
    apply InvoiceExtraction_fields_errors in H
      as [H | [H | [H | (name & l & Hl & _ & Hname & _)]]].
    + apply field_error_loc in H as (l & Hl). congruence.
    + rewrite (field_present _ _ _ _ Hc) in H. exact H.
    + apply field_error_loc in H as (l & Hl). congruence.
    + congruence.
  - intros r Hv. split; [eauto using valid_delivered |].
    apply InvoiceExtraction_fields_valid in Hv as (_ & Hv & _).
    rewrite (field_present _ _ _ _ Hc) in Hv. cbn in Hv. congruence.
Qed.

Lemma C7_currency_any_text_witness :
  (forall errors e,
      InvoiceExtraction_fields
        (Scenario.fields (VInt 2) (VFloat (Scenario.num 200 1)) "US" true 5)
      = Invalid errors ->
      In e errors ->
      err_loc e <> [Key "currency"])
  /\ (forall r,
         InvoiceExtraction_fields
           (Scenario.fields (VInt 2) (VFloat (Scenario.num 200 1)) "US" true 5)
         = Valid r ->
         fst (analyze_invoice
                (Scenario.only_genai
                   (Returns (JSON Scenario.reply_currency_US)))
                "Google Gemini" "key" "text" empty_world)
         = Returns (Some r)
         /\ currency r = "US").
Proof.
  apply (C7_currency_any_text
           (Scenario.only_genai (Returns (JSON Scenario.reply_currency_US)))
           "Google Gemini" "key" "text" empty_world
           (fun _ _ => Returns (JSON Scenario.reply_currency_US))
           (Scenario.fields (VInt 2) (VFloat (Scenario.num 200 1)) "US" true 5)
           "US");
    reflexivity.
Defined.

(** ** C4: a number written as text *)

Lemma validate_float_numeral s f :
  Numeral.parse_float s = Some f -> validate_float (VStr s) = Valid f.
Proof. cbn. intros ->. reflexivity. Qed.

(** C4, as stated, fails: a reply whose line item has its quantity written as
    the text 12.50 validates, the text is coerced to the float 12.5, and the
    run returns the record. *)
Lemma C4_quantity_text_coerced :
  exists r li,
    InvoiceExtraction_init Scenario.reply_quantity_text = Returns r
    /\ fst (analyze_invoice
              (Scenario.only_genai
                 (Returns (JSON Scenario.reply_quantity_text)))
              "Google Gemini" "key" "text" empty_world)
       = Returns (Some r)
    /\ line_items r = [li]
    /\ quantity li = Scenario.num 125 1.
Proof.
  eexists (Scenario.record (Scenario.num 125 1) (Scenario.num 200 1) "USD"
                           true 5), _.
  repeat split; vm_compute; reflexivity.
Qed.

(** C4 (amended): for every backend reply in which a line item's quantity,
    unit_price or total is emitted as a JSON string holding a plain decimal
    numeral (such as 12.50), validation raises no error on that field but
    coerces the text: when the reply validates, the run returns the record
    with the float nearest to the numeral in that field. *)
Theorem C4_numeral_text_coerced
    lib provider api_key text_content w sdk d items i item name s f :
  text_sdk lib provider = Some sdk ->
  answers provider api_key text_content w sdk (Returns (JSON (VDict d))) ->
  dict_get d "line_items" = Some (VList items) ->
  nth_error items i = Some (VDict item) ->
  In name ["quantity"; "unit_price"; "total"] ->
  dict_get item name = Some (VStr s) ->
  Numeral.parse_float s = Some f ->
  (forall errors e,
      InvoiceExtraction_fields d = Invalid errors ->
      In e errors ->
      err_loc e <> [Key "line_items"; Idx i; Key name])
  /\ (forall r,
         InvoiceExtraction_fields d = Valid r ->
         fst (analyze_invoice lib provider api_key text_content w)
         = Returns (Some r)
         /\ exists li,
              nth_error (line_items r) i = Some li
              /\ number_field name li = Some f).
Proof.
  intros Hsdk Hans Hli Hi Hin Hname Hs.
  pose proof (validate_float_numeral s f Hs) as Hf.
  split.
  - intros errors e Hinv He Hloc.
    assert (H : In e (errors_of (InvoiceExtraction_fields d)))
      by (rewrite Hinv; exact He).
    apply InvoiceExtraction_fields_errors in H
      as [H | [H | [H | (name' & l & Hl & Hname' & _ & _)]]].
    + rewrite (field_present _ _ _ _ Hli), errors_of_at_loc in H.
      apply in_map_iff in H as (e1 & <- & H). cbn in H, Hloc.
      apply validate_items_errors in H as (j & v & e2 & Hj & H & ->).
      cbn in Hloc. injection Hloc as -> Hloc.
      rewrite Hi in Hj. injection Hj as <-. cbn in H.
      assert (Hno : errors_of (field name validate_float item) = [])
        by (rewrite (field_present _ _ _ _ Hname), Hf; reflexivity).
      apply LineItem_fields_errors in H as [H | [H | [H | H]]];
        pose proof H as H';
        apply field_error_loc in H' as (l & Hl);
        rewrite Hl in Hloc; injection Hloc as <- _.
      * cbn in Hin. intuition discriminate.
      * rewrite Hno in H. exact H.
      * rewrite Hno in H. exact H.
      * rewrite Hno in H. exact H.
    + apply field_error_loc in H as (l & Hl). congruence.
    + apply field_error_loc in H as (l & Hl). congruence.
    + congruence.
  - intros r Hv. split; [eauto using valid_delivered |].
    apply InvoiceExtraction_fields_valid in Hv as (Hv & _ & _).
    rewrite (field_present _ _ _ _ Hli) in Hv.
    apply at_loc_valid in Hv. cbn in Hv.
    apply validate_items_valid in Hv.
    destruct (Forall2_nth_error _ _ _ Hv i _ Hi) as (li & Hnth & Hitem).
    exists li. split; [exact Hnth |].
    cbn in Hitem.
    apply LineItem_fields_valid in Hitem as (_ & Hq & Hu & Ht).
    cbn in Hin. destruct Hin as [<- | [<- | [<- | []]]].
    + rewrite (field_present _ _ _ _ Hname), Hf in Hq. cbn in *. congruence.
    + rewrite (field_present _ _ _ _ Hname), Hf in Hu. cbn in *. congruence.
    + rewrite (field_present _ _ _ _ Hname), Hf in Ht. cbn in *. congruence.
Qed.

Lemma C4_numeral_text_coerced_witness :
  (forall errors e,
      InvoiceExtraction_fields
        (Scenario.fields (VStr "12.50") (VFloat (Scenario.num 200 1)) "USD"
                         true 5)
      = Invalid errors ->
      In e errors ->
      err_loc e <> [Key "line_items"; Idx 0; Key "quantity"])
  /\ (forall r,
         InvoiceExtraction_fields
           (Scenario.fields (VStr "12.50") (VFloat (Scenario.num 200 1)) "USD"
                            true 5)
         = Valid r ->
         fst (analyze_invoice
                (Scenario.only_genai
                   (Returns (JSON Scenario.reply_quantity_text)))
                "Google Gemini" "key" "text" empty_world)
         = Returns (Some r)
         /\ exists li,
              nth_error (line_items r) 0 = Some li
              /\ number_field "quantity" li = Some (Scenario.num 125 1)).
Proof.
  apply (C4_numeral_text_coerced
           (Scenario.only_genai (Returns (JSON Scenario.reply_quantity_text)))
           "Google Gemini" "key" "text" empty_world
           (fun _ _ => Returns (JSON Scenario.reply_quantity_text))
           (Scenario.fields (VStr "12.50") (VFloat (Scenario.num 200 1)) "USD"
                            true 5)
           [VDict (Scenario.line (VStr "12.50") (VFloat (Scenario.num 200 1)))]
           0%nat
           (Scenario.line (VStr "12.50") (VFloat (Scenario.num 200 1)))
           "quantity" "12.50" (Scenario.num 125 1));
    first [reflexivity | cbn; auto].
Defined.

(** ** C8: serialise and validate again *)

Lemma float_json_finite f :
  Py.isfinite f = true -> float_json f = VFloat f.
Proof. unfold float_json. intros ->. reflexivity. Qed.

Lemma validate_items_strs (l : list string) :
  forall k, validate_items validate_str (map VStr l) k = Valid l.
Proof.
  induction l as [| s l IH]; intros k; cbn; [reflexivity |].
  rewrite IH. reflexivity.
Qed.

Lemma LineItem_round_trip li :
  LineItem_finite li = true ->
  validate_model LineItem_fields (LineItem_json li) = Valid li.
Proof.
  destruct li as [desc q u t]. unfold LineItem_finite. cbn.
  intros H. apply andb_prop in H as [H Ht]. apply andb_prop in H as [Hq Hu].
  unfold LineItem_fields, field. cbn.
  rewrite !float_json_finite by assumption. reflexivity.
Qed.

Lemma validate_items_lines (l : list LineItem) :
  forallb LineItem_finite l = true ->
  forall k,
    validate_items (validate_model LineItem_fields) (map LineItem_json l) k
    = Valid l.
Proof.
  induction l as [| li l IH]; intros H k; [reflexivity |].
  cbn in H. apply andb_prop in H as [Hli Hl].
  cbn [map validate_items].
  rewrite (LineItem_round_trip li Hli), (IH Hl). reflexivity.
Qed.

Lemma RiskAssessment_round_trip ra :
  validate_model RiskAssessment_fields (RiskAssessment_dump ra) = Valid ra.
Proof.
  destruct ra as [b issues score].
  unfold RiskAssessment_fields, field. cbn.
  rewrite validate_items_strs. reflexivity.
Qed.

Lemma record_json_finite r :
  all_finite r = true ->
  InvoiceExtraction_init (record_json r) = Returns r.
Proof.
  intros Hfin.
  destruct r as [vn dt nb items sub tax tot cur ra].
  unfold all_finite in Hfin. cbn in Hfin.
  apply andb_prop in Hfin as [Hfin Htot].
  apply andb_prop in Hfin as [Hfin Htax].
  apply andb_prop in Hfin as [Hitems Hsub].
  unfold InvoiceExtraction_init, record_json, InvoiceExtraction_fields,
    field.
  cbn [dict_get String.eqb Ascii.eqb Bool.eqb
       vendor_name invoice_date invoice_number line_items subtotal tax_amount
       grand_total currency risk_assessment].
  rewrite !float_json_finite by assumption.
  rewrite RiskAssessment_round_trip.
  cbn [validate_str validate_float validate_list at_loc vmap vap].
  rewrite (validate_items_lines items Hitems). reflexivity.
Qed.




(** ** C5: what the caller receives when a run fails *)

(** C5, as stated, fails: a run whose provider call is refused as
    unauthorized and a run whose reply is not JSON both hand the caller
    [None]; no reading of the returned value tells the stage or the class of
    the failure. *)
Lemma C5_failures_indistinguishable :
  fst (analyze_invoice
         (Scenario.only_genai (Raises (SdkError Unauthorized)))
         "Google Gemini" "key" "text" empty_world)
  = Returns None
  /\ fst (analyze_invoice
            (Scenario.only_genai (Returns NotJSON))
            "Google Gemini" "key" "text" empty_world)
     = Returns None
  /\ ~ exists classify
         : outcome (option InvoiceExtraction) -> Spec.PipelineError,
         classify
           (fst (analyze_invoice
                   (Scenario.only_genai (Raises (SdkError Unauthorized)))
                   "Google Gemini" "key" "text" empty_world))
         = {| Spec.stage := Spec.Adapter;
              Spec.kind := Spec.OfAdapter Unauthorized |}
         /\ classify
              (fst (analyze_invoice
                      (Scenario.only_genai (Returns NotJSON))
                      "Google Gemini" "key" "text" empty_world))
            = {| Spec.stage := Spec.Validation;
                 Spec.kind := Spec.MalformedJSON |}.
Proof.
  split; [vm_compute; reflexivity |].
  split; [vm_compute; reflexivity |].
  intros (classify & H1 & H2).
  change (classify (Returns None)
          = {| Spec.stage := Spec.Adapter;
               Spec.kind := Spec.OfAdapter Unauthorized |}) in H1.
  change (classify (Returns None)
          = {| Spec.stage := Spec.Validation;
               Spec.kind := Spec.MalformedJSON |}) in H2.
  rewrite H1 in H2. discriminate H2.
Qed.

(** C5 (amended): for every failing run (the provider call raises, the reply
    is not JSON, or the reply violates the schema) no exception reaches the
    caller: [analyze_invoice] returns [None], after showing one message made
    of the text Analysis Failed and the exception. *)
Theorem C5_failure_returns_None lib provider api_key text_content w e :
  failed lib provider api_key text_content w e ->
  fst (analyze_invoice lib provider api_key text_content w) = Returns None
  /\ shown (snd (analyze_invoice lib provider api_key text_content w))
     = (shown w ++ [Formatted "Analysis Failed: " e])%list.
Proof.
  intros H. rewrite (analyze_invoice_failed _ _ _ _ _ _ H). auto.
Qed.

Lemma C5_failure_returns_None_witness :
  fst (analyze_invoice (Scenario.only_genai (Returns NotJSON))
                       "Google Gemini" "key" "text" empty_world)
  = Returns None
  /\ shown (snd (analyze_invoice (Scenario.only_genai (Returns NotJSON))
                                 "Google Gemini" "key" "text" empty_world))
     = (shown empty_world ++ [Formatted "Analysis Failed: " JSONDecodeError])%list.
Proof.
  apply (C5_failure_returns_None
           (Scenario.only_genai (Returns NotJSON))
           "Google Gemini" "key" "text" empty_world JSONDecodeError).
  apply (failed_json _ _ _ _ _ _ (fun _ _ => Returns NotJSON));
    reflexivity.
Defined.

(** ** C6: retries *)

(** C6, as stated, fails: when the first call times out, the run ends with
    [None] after that one call; no second call is made, though it would have
    been answered. *)
Lemma C6_timeout_not_retried :
  fst (analyze_invoice Scenario.timeout_once "Google Gemini" "key" "text" empty_world)
  = Returns None
  /\ List.length
       (calls (snd (analyze_invoice Scenario.timeout_once "Google Gemini" "key" "text"
                                    empty_world)))
     = 1%nat
  /\ List.length
       (calls (snd (analyze_invoice Scenario.timeout_once "Google Gemini" "key" "text"
                                    empty_world)))
     <> 2%nat.
Proof.
  split; [vm_compute; reflexivity |].
  split; [vm_compute; reflexivity |].
  vm_compute. discriminate.
Qed.

(** C6 (amended): for every run in which the provider call fails, with an
    Unauthorized error, a Timeout or any other class, exactly one backend call
    is made and the failure is surfaced as [None]: no failure is retried. *)
Theorem C6_failed_call_never_retried
    lib provider api_key text_content w kind :
  call_raised lib provider api_key text_content w (SdkError kind) ->
  fst (analyze_invoice lib provider api_key text_content w) = Returns None
  /\ calls (snd (analyze_invoice lib provider api_key text_content w))
     = (calls w ++ [outbound provider api_key text_content])%list.
Proof.
  intros H.
  assert (Hf : failed lib provider api_key text_content w (SdkError kind)).
  { destruct H as [(sdk & Hsdk & Hans) | (parse & Hp & Hlib & Hans)].
    - eapply failed_text_call; eauto.
    - eapply failed_parse_call; eauto. }
  rewrite (analyze_invoice_failed _ _ _ _ _ _ Hf). auto.
Qed.

Lemma C6_failed_call_never_retried_witness :
  fst (analyze_invoice Scenario.timeout_once "Google Gemini" "key" "text" empty_world)
  = Returns None
  /\ calls (snd (analyze_invoice Scenario.timeout_once "Google Gemini" "key" "text"
                                 empty_world))
     = (calls empty_world ++ [outbound "Google Gemini" "key" "text"])%list.
Proof.
  apply (C6_failed_call_never_retried
           Scenario.timeout_once "Google Gemini" "key" "text" empty_world Timeout).
  left. eexists. split; reflexivity.
Defined.

(** ** C9: a provider name that is none of the four *)

(** C9: for every provider argument that is none of the four names,
    [analyze_invoice] makes no call, shows no message, raises nothing and
    returns [None], whatever the libraries, the credential and the text. *)
Theorem C9_unknown_provider lib provider api_key text_content w :
  provider <> "Google Gemini" ->
  provider <> "OpenAI" ->
  provider <> "Anthropic (Claude)" ->
  provider <> "Groq (Llama 3)" ->
  analyze_invoice lib provider api_key text_content w = (Returns None, w).
Proof.
  intros H1 H2 H3 H4.
  apply String.eqb_neq in H1, H2, H3, H4.
  unfold analyze_invoice, try_except.
  rewrite H1, H2, H3, H4. reflexivity.
Qed.

Lemma C9_unknown_provider_witness :
  analyze_invoice Scenario.timeout_once "Mistral" "key" "text" empty_world
  = (Returns None, empty_world).
Proof.
  apply (C9_unknown_provider Scenario.timeout_once "Mistral" "key" "text" empty_world);
    discriminate.
Defined.

(** ** C10: a PDF without text *)

Lemma append_empty_r (s : string) : (s ++ EmptyString)%string = s.
Proof. induction s as [| c s IH]; cbn; [reflexivity | now rewrite IH]. Qed.

Lemma read_pages_no_text pages :
  Forall no_text pages ->
  forall text w, read_pages pages text w = (Returns text, w).
Proof.
  induction 1 as [| p pages Hp _ IH]; intros text w; [reflexivity |].
  cbn. unfold bind, lift.
  destruct Hp as [-> | ->]; cbn; rewrite append_empty_r; apply IH.
Qed.

Lemma read_pages_outcome pages :
  forall text w,
    if existsb page_raises pages
    then exists e, read_pages pages text w = (Raises e, w)
    else exists t, read_pages pages text w = (Returns t, w).
Proof.
  induction pages as [| p pages IH]; intros text w; cbn.
  - eexists. reflexivity.
  - unfold bind, lift, page_raises.
    destruct (extract_text p) as [e | t]; cbn.
    + eexists. reflexivity.
    + apply IH.
Qed.

(** C10: for every PDF that opens and whose pages are read without an
    exception but hold no extractable text, [extract_text_from_pdf] returns the
    empty text, shows nothing; and, for any document, it returns [None]
    exactly when opening or reading raises. *)
Theorem C10_no_text_gives_empty_string pages w :
  Forall no_text pages ->
  extract_text_from_pdf (Returns pages) w = (Returns (Some EmptyString), w)
  /\ forall f w',
       fst (extract_text_from_pdf f w') = Returns None
       <-> reading_raises f = true.
Proof.
  intros Hpages. split.
  - unfold extract_text_from_pdf, try_except, bind, lift.
    rewrite (read_pages_no_text pages Hpages). reflexivity.
  - intros [e | ps] w'; cbn.
    + unfold extract_text_from_pdf, try_except, bind, lift. cbn. tauto.
    + unfold extract_text_from_pdf, try_except, bind, lift.
      pose proof (read_pages_outcome ps EmptyString w') as H.
      destruct (existsb page_raises ps); destruct H as (x & ->); cbn.
      * tauto.
      * split; discriminate.
Qed.

Lemma C10_no_text_gives_empty_string_witness :
  extract_text_from_pdf
    (Returns [mkPage (Returns None); mkPage (Returns (Some EmptyString))])
    empty_world
  = (Returns (Some EmptyString), empty_world)
  /\ forall f w',
       fst (extract_text_from_pdf f w') = Returns None
       <-> reading_raises f = true.
Proof.
  apply (C10_no_text_gives_empty_string
           [mkPage (Returns None); mkPage (Returns (Some EmptyString))]
           empty_world).
  apply Forall_cons; [left; reflexivity |].
  apply Forall_cons; [right; reflexivity |].
  apply Forall_nil.
Defined.

(** * Further properties of the code *)

(** ** Every run of [analyze_invoice] ends in one of five ways *)

Lemma text_run_ending lib provider api_key text_content w sdk :
  text_sdk lib provider = Some sdk ->
  ending lib provider api_key text_content w
    (try_except
       (response <- request sdk (outbound provider api_key text_content) ;;
        v <- lift (json_loads response) ;;
        r <- lift (InvoiceExtraction_init v) ;;
        ret (Some r))%py
       (fun e =>
          st_error (Formatted "Analysis Failed: " e) ;;
          ret None)%py
       w).
Proof.
  intros Hsdk.
  unfold try_except, bind, request, lift, ret, st_error.
  destruct (sdk (List.length (calls w))
                (outbound provider api_key text_content))
    as [e | [| v]] eqn:Hans.
  - apply end_failed. eapply failed_text_call; eauto.
  - apply end_failed. eapply failed_json; eauto.
  - cbn. destruct (InvoiceExtraction_init v) as [e | r] eqn:Hinit.
    + apply end_failed. eapply failed_validation; eauto.
    + apply end_delivered. eapply delivered_text; eauto.
Qed.

Lemma analyze_invoice_ending lib provider api_key text_content w :
  ending lib provider api_key text_content w
         (analyze_invoice lib provider api_key text_content w).
Proof.
  destruct (String.eqb provider "Google Gemini") eqn:E1;
    [apply String.eqb_eq in E1; subst provider |].
  { destruct (genai lib) as [sdk |] eqn:Hlib.
    - pose proof (text_run_ending lib "Google Gemini" api_key text_content w
                    sdk Hlib) as H.
      unfold analyze_invoice. cbn [String.eqb Ascii.eqb Bool.eqb].
      rewrite Hlib. exact H.
    - unfold analyze_invoice. cbn [String.eqb Ascii.eqb Bool.eqb].
      rewrite Hlib.
      apply (end_not_installed lib "Google Gemini"); [reflexivity |].
      unfold installed. cbn [String.eqb Ascii.eqb Bool.eqb].
      rewrite Hlib. reflexivity. }
  destruct (String.eqb provider "OpenAI") eqn:E2;
    [apply String.eqb_eq in E2; subst provider |].
  { unfold analyze_invoice. cbn [String.eqb Ascii.eqb Bool.eqb].
    destruct (OpenAI lib) as [parse |] eqn:Hlib.
    - unfold try_except, request.
      destruct (parse (List.length (calls w))
                      (OpenAI_parse api_key "gpt-4o-2024-08-06"
                                    system_instruction text_content))
        as [e | [r |]] eqn:Hans.
      + apply (end_failed lib "OpenAI").
        eapply failed_parse_call; eauto.
      + apply (end_delivered lib "OpenAI").
        eapply delivered_parsed; eauto.
      + apply (end_parsed_nothing lib "OpenAI").
        exists parse. auto.
    - apply (end_not_installed lib "OpenAI"); [reflexivity |].
      unfold installed. cbn [String.eqb Ascii.eqb Bool.eqb].
      rewrite Hlib. reflexivity. }
  destruct (String.eqb provider "Anthropic (Claude)") eqn:E3;
    [apply String.eqb_eq in E3; subst provider |].
  { destruct (anthropic lib) as [sdk |] eqn:Hlib.
    - pose proof (text_run_ending lib "Anthropic (Claude)" api_key
                    text_content w sdk Hlib) as H.
      unfold analyze_invoice. cbn [String.eqb Ascii.eqb Bool.eqb].
      rewrite Hlib. exact H.
    - unfold analyze_invoice. cbn [String.eqb Ascii.eqb Bool.eqb].
      rewrite Hlib.
      apply (end_not_installed lib "Anthropic (Claude)"); [reflexivity |].
      unfold installed. cbn [String.eqb Ascii.eqb Bool.eqb].
      rewrite Hlib. reflexivity. }
  destruct (String.eqb provider "Groq (Llama 3)") eqn:E4;
    [apply String.eqb_eq in E4; subst provider |].
  { destruct (Groq lib) as [sdk |] eqn:Hlib.
    - pose proof (text_run_ending lib "Groq (Llama 3)" api_key
                    text_content w sdk Hlib) as H.
      unfold analyze_invoice. cbn [String.eqb Ascii.eqb Bool.eqb].
      rewrite Hlib. exact H.
    - unfold analyze_invoice. cbn [String.eqb Ascii.eqb Bool.eqb].
      rewrite Hlib.
      apply (end_not_installed lib "Groq (Llama 3)"); [reflexivity |].
      unfold installed. cbn [String.eqb Ascii.eqb Bool.eqb].
      rewrite Hlib. reflexivity. }
  unfold analyze_invoice, try_except. rewrite E1, E2, E3, E4.
  apply end_unknown. unfold recognized. rewrite E1, E2, E3, E4. reflexivity.
Qed.

Lemma text_sdk_installed lib provider sdk :
  text_sdk lib provider = Some sdk ->
  recognized provider = true /\ installed lib provider = true.
Proof.
  unfold text_sdk, recognized, installed.
  destruct (String.eqb provider "Google Gemini") eqn:E1.
  { intros ->. auto. }
  destruct (String.eqb provider "Anthropic (Claude)") eqn:E3.
  { intros ->. apply String.eqb_eq in E3. subst provider. auto. }
  destruct (String.eqb provider "Groq (Llama 3)") eqn:E4.
  { intros ->. apply String.eqb_eq in E4. subst provider. auto. }
  discriminate.
Qed.

Lemma delivered_installed lib provider api_key text_content w r :
  delivered lib provider api_key text_content w r ->
  recognized provider = true /\ installed lib provider = true.
Proof.
  intros [sdk v Hsdk _ _ | parse -> Hlib _].
  - eauto using text_sdk_installed.
  - unfold installed. cbn. rewrite Hlib. auto.
Qed.

Lemma failed_installed lib provider api_key text_content w e :
  failed lib provider api_key text_content w e ->
  recognized provider = true /\ installed lib provider = true.
Proof.
  intros [sdk Hsdk _ | parse -> Hlib _ | sdk Hsdk _ _ | sdk v Hsdk _ _];
    eauto using text_sdk_installed.
  unfold installed. cbn. rewrite Hlib. auto.
Qed.

Lemma parsed_nothing_installed lib provider api_key text_content w :
  parsed_nothing lib provider api_key text_content w ->
  recognized provider = true /\ installed lib provider = true.
Proof.
  intros (parse & -> & Hlib & _).
  unfold installed. cbn. rewrite Hlib. auto.
Qed.

Lemma unrecognized_not_installed lib provider :
  recognized provider = false -> installed lib provider = false.
Proof.
  unfold recognized, installed. intros H.
  repeat (apply orb_false_elim in H as [H ?]).
  repeat match goal with E : String.eqb _ _ = false |- _ =>
           rewrite E; clear E end.
  reflexivity.
Qed.

Lemma app_one_neq {A : Type} (l : list A) (a : A) : (l ++ [a])%list <> l.
Proof.
  intros H. apply (f_equal (@List.length A)) in H.
  rewrite length_app in H. cbn in H. lia.
Qed.

(** ** [analyze_invoice]: what a run does to the outside *)

(** X1: [analyze_invoice] never raises: whatever the libraries do (refuse,
    time out, reply with anything), the caller gets a value back. *)
Theorem analyze_invoice_never_raises lib provider api_key text_content w :
  exists result,
    fst (analyze_invoice lib provider api_key text_content w)
    = Returns result.
Proof.
  destruct (analyze_invoice_ending lib provider api_key text_content w);
    cbn; eauto.
Qed.

(** X2: a run sends exactly one call when the library of the provider is
    installed, and none otherwise; the call is for that provider and carries
    the credential and the text of this run; the record of earlier calls is
    kept. *)
Theorem analyze_invoice_calls lib provider api_key text_content w :
  calls (snd (analyze_invoice lib provider api_key text_content w))
  = if installed lib provider
    then (calls w ++ [outbound provider api_key text_content])%list
    else calls w.
Proof.
  destruct (analyze_invoice_ending lib provider api_key text_content w)
    as [Hr | Hr Hi | r Hd | e Hf | Hp]; cbn.
  - rewrite (unrecognized_not_installed lib provider Hr). reflexivity.
  - rewrite Hi. reflexivity.
  - apply delivered_installed in Hd as [_ ->]. reflexivity.
  - apply failed_installed in Hf as [_ ->]. reflexivity.
  - apply parsed_nothing_installed in Hp as [_ ->]. reflexivity.
Qed.

(** X3: a run shows at most one message, after those already shown. *)
Theorem analyze_invoice_shows_at_most_one
    lib provider api_key text_content w :
  shown (snd (analyze_invoice lib provider api_key text_content w)) = shown w
  \/ exists m,
       shown (snd (analyze_invoice lib provider api_key text_content w))
       = (shown w ++ [m])%list.
Proof.
  destruct (analyze_invoice_ending lib provider api_key text_content w);
    cbn; eauto.
Qed.

(** X4: [analyze_invoice] returns a record exactly when the backend delivered
    it (the reply validated into it, or the SDK parsed it), and then it has
    sent its one call and shown no message. *)
Theorem analyze_invoice_returns_what_was_delivered
    lib provider api_key text_content w r :
  fst (analyze_invoice lib provider api_key text_content w) = Returns (Some r)
  <-> delivered lib provider api_key text_content w r
      /\ snd (analyze_invoice lib provider api_key text_content w)
         = sent w (outbound provider api_key text_content).
Proof.
  split.
  - intros H.
    destruct (analyze_invoice_ending lib provider api_key text_content w)
      as [Hr | Hr Hi | r' Hd | e Hf | Hp]; cbn in *; try discriminate.
    injection H as <-. auto.
  - intros [Hd _].
    rewrite (analyze_invoice_delivered _ _ _ _ _ _ Hd). reflexivity.
Qed.

(** X5: when the library of a recognized provider is not installed, the run
    sends nothing, shows that the package is not installed and returns
    [None]. *)
Theorem analyze_invoice_library_missing
    lib provider api_key text_content w :
  recognized provider = true ->
  installed lib provider = false ->
  analyze_invoice lib provider api_key text_content w
  = (Returns None, showing w (not_installed provider)).
Proof.
  intros Hr Hi.
  destruct (analyze_invoice_ending lib provider api_key text_content w)
    as [Hr' | _ _ | r Hd | e Hf | Hp].
  - congruence.
  - reflexivity.
  - apply delivered_installed in Hd as [_ Hd]. congruence.
  - apply failed_installed in Hf as [_ Hf]. congruence.
  - apply parsed_nothing_installed in Hp as [_ Hp]. congruence.
Qed.

Lemma analyze_invoice_library_missing_witness :
  analyze_invoice (Scenario.only_genai (Returns NotJSON)) "Groq (Llama 3)"
                  "key" "text" empty_world
  = (Returns None,
     showing empty_world (Literal "Library `groq` not installed.")).
Proof.
  apply (analyze_invoice_library_missing
           (Scenario.only_genai (Returns NotJSON)) "Groq (Llama 3)"
           "key" "text" empty_world);
    reflexivity.
Defined.

(** X6: [None] comes back with no message shown in two cases only: the
    provider name is none of the four, or [OpenAI]'s [parse] answered with
    nothing parsed. *)
Theorem analyze_invoice_silent_None lib provider api_key text_content w :
  fst (analyze_invoice lib provider api_key text_content w) = Returns None
  /\ shown (snd (analyze_invoice lib provider api_key text_content w))
     = shown w
  <-> recognized provider = false
      \/ parsed_nothing lib provider api_key text_content w.
Proof.
  split.
  - intros [Hres Hshown].
    destruct (analyze_invoice_ending lib provider api_key text_content w)
      as [Hr | Hr Hi | r Hd | e Hf | Hp]; cbn in *; auto;
      try discriminate;
      exfalso; eapply app_one_neq; eauto.
  - intros H.
    destruct (analyze_invoice_ending lib provider api_key text_content w)
      as [Hr | Hr Hi | r Hd | e Hf | Hp]; cbn; auto; exfalso.
    + destruct H as [H | H]; [congruence |].
      apply parsed_nothing_installed in H as [_ H]. congruence.
    + destruct H as [H | (parse & -> & Hlib & Hans)].
      * apply delivered_installed in Hd as [Hd _]. congruence.
      * destruct Hd as [sdk v Hsdk _ _ | parse' _ Hlib' Hans'].
        -- discriminate Hsdk.
        -- unfold answers in *. congruence.
    + destruct H as [H | (parse & -> & Hlib & Hans)].
      * apply failed_installed in Hf as [Hf _]. congruence.
      * destruct Hf as [sdk Hsdk _ | parse' _ Hlib' Hans' | sdk Hsdk _ _
                       | sdk v Hsdk _ _];
          try discriminate Hsdk.
        unfold answers in *. congruence.
Qed.

(** ** Validation: what the schema classes require of a reply *)

Lemma errors_invalid {A : Type} (r : vres A) e :
  In e (errors_of r) -> r = Invalid (errors_of r).
Proof. destruct r; cbn; [contradiction | reflexivity]. Qed.

Lemma init_raises d e :
  In e (errors_of (InvoiceExtraction_fields d)) ->
  exists errors,
    InvoiceExtraction_init (VDict d) = Raises (ValidationError errors)
    /\ In e errors.
Proof.
  intros H. pose proof (errors_invalid _ _ H) as Hinv.
  exists (errors_of (InvoiceExtraction_fields d)).
  split; [| exact H].
  cbn. rewrite Hinv. reflexivity.
Qed.

Lemma field_missing {A : Type} name (validator : value -> vres A) d :
  dict_get d name = None ->
  errors_of (field name validator d) = [missing_at [Key name]].
Proof. unfold field. intros ->. reflexivity. Qed.

Lemma LineItem_errors_app d :
  errors_of (LineItem_fields d)
  = (errors_of (field "description" validate_str d)
     ++ errors_of (field "quantity" validate_float d)
     ++ errors_of (field "unit_price" validate_float d)
     ++ errors_of (field "total" validate_float d))%list.
Proof.
  unfold LineItem_fields.
  rewrite !errors_of_vap, errors_of_vmap, <- !app_assoc. reflexivity.
Qed.

Lemma RiskAssessment_errors_app d :
  errors_of (RiskAssessment_fields d)
  = (errors_of (field "is_math_correct" validate_bool d)
     ++ errors_of (field "flagged_issues" (validate_list validate_str) d)
     ++ errors_of (field "fraud_score" validate_int d))%list.
Proof.
  unfold RiskAssessment_fields.
  rewrite !errors_of_vap, errors_of_vmap, <- !app_assoc. reflexivity.
Qed.

Lemma InvoiceExtraction_errors_app d :
  errors_of (InvoiceExtraction_fields d)
  = (errors_of (field "vendor_name" validate_str d)
     ++ errors_of (field "invoice_date" validate_str d)
     ++ errors_of (field "invoice_number" validate_str d)
     ++ errors_of (field "line_items"
                     (validate_list (validate_model LineItem_fields)) d)
     ++ errors_of (field "subtotal" validate_float d)
     ++ errors_of (field "tax_amount" validate_float d)
     ++ errors_of (field "grand_total" validate_float d)
     ++ errors_of (field "currency" validate_str d)
     ++ errors_of (field "risk_assessment"
                     (validate_model RiskAssessment_fields) d))%list.
Proof.
  unfold InvoiceExtraction_fields.
  rewrite !errors_of_vap, errors_of_vmap, <- !app_assoc. reflexivity.
Qed.

Lemma validate_items_errors_in {A : Type} (item : value -> vres A) l :
  forall k i v e,
    nth_error l i = Some v ->
    In e (errors_of (item v)) ->
    In (under (Idx (k + i)) e) (errors_of (validate_items item l k)).
Proof.
  induction l as [| v0 l IH]; intros k [| i] v e Hi He; cbn in Hi;
    try discriminate;
    cbn [validate_items];
    rewrite errors_of_vap, errors_of_vmap, errors_of_at_loc, in_app_iff.
  - injection Hi as ->. left. rewrite Nat.add_0_r. now apply in_map.
  - right. rewrite <- plus_n_Sm. apply (IH (S k) i v e Hi He).
Qed.

Ltac pick_field H Hget :=
  cbn in H;
  repeat (destruct H as [H | H];
          [subst; rewrite (field_missing _ _ _ Hget); cbn; tauto |]);
  contradiction.

(** X7: every field of [InvoiceExtraction] is required: a reply that lacks
    one of the nine is rejected, with an error of type missing at that
    field. *)
Theorem missing_field_rejected d name :
  In name InvoiceExtraction_names ->
  dict_get d name = None ->
  exists errors,
    InvoiceExtraction_init (VDict d) = Raises (ValidationError errors)
    /\ In (missing_at [Key name]) errors.
Proof.
  intros Hin Hget. apply init_raises.
  rewrite InvoiceExtraction_errors_app, !in_app_iff.
  pick_field Hin Hget.
Qed.

Lemma missing_field_rejected_witness :
  exists errors,
    InvoiceExtraction_init
      (VDict [("vendor_name", VStr "Acme"); ("currency", VStr "USD")])
    = Raises (ValidationError errors)
    /\ In (missing_at [Key "risk_assessment"]) errors.
Proof.
  apply (missing_field_rejected
           [("vendor_name", VStr "Acme"); ("currency", VStr "USD")]
           "risk_assessment").
  - cbn. tauto.
  - reflexivity.
Defined.

(** X8: every field of a line item is required: a reply whose i-th line item
    lacks one of the four is rejected, with an error of type missing at
    line_items, i, and that field. *)
Theorem line_item_missing_field_rejected d items i item name :
  dict_get d "line_items" = Some (VList items) ->
  nth_error items i = Some (VDict item) ->
  In name LineItem_names ->
  dict_get item name = None ->
  exists errors,
    InvoiceExtraction_init (VDict d) = Raises (ValidationError errors)
    /\ In (missing_at [Key "line_items"; Idx i; Key name]) errors.
Proof.
  intros Hli Hi Hin Hget. apply init_raises.
  rewrite InvoiceExtraction_errors_app, !in_app_iff.
  do 3 right. left.
  rewrite (field_present _ _ _ _ Hli), errors_of_at_loc.
  change (missing_at [Key "line_items"; Idx i; Key name])
    with (under (Key "line_items")
                (under (Idx (0 + i)) (missing_at [Key name]))).
  apply in_map. cbn [validate_list].
  apply (validate_items_errors_in _ items 0%nat i (VDict item)); [exact Hi |].
  cbn [validate_model]. rewrite LineItem_errors_app, !in_app_iff.
  pick_field Hin Hget.
Qed.

Lemma line_item_missing_field_rejected_witness :
  exists errors,
    InvoiceExtraction_init
      (VDict [("line_items",
               VList [VDict (Scenario.line (VInt 2) (VInt 20));
                      VDict [("description", VStr "Widget")]])])
    = Raises (ValidationError errors)
    /\ In (missing_at [Key "line_items"; Idx 1; Key "total"]) errors.
Proof.
  apply (line_item_missing_field_rejected
           [("line_items",
             VList [VDict (Scenario.line (VInt 2) (VInt 20));
                    VDict [("description", VStr "Widget")]])]
           [VDict (Scenario.line (VInt 2) (VInt 20));
            VDict [("description", VStr "Widget")]]
           1%nat [("description", VStr "Widget")] "total").
  - reflexivity.
  - reflexivity.
  - cbn. tauto.
  - reflexivity.
Defined.

(** X9: every field of the risk assessment is required: a reply whose
    risk_assessment lacks one of the three is rejected, with an error of type
    missing at risk_assessment and that field. *)
Theorem risk_assessment_missing_field_rejected d ra name :
  dict_get d "risk_assessment" = Some (VDict ra) ->
  In name RiskAssessment_names ->
  dict_get ra name = None ->
  exists errors,
    InvoiceExtraction_init (VDict d) = Raises (ValidationError errors)
    /\ In (missing_at [Key "risk_assessment"; Key name]) errors.
Proof.
  intros Hra Hin Hget. apply init_raises.
  rewrite InvoiceExtraction_errors_app, !in_app_iff.
  do 8 right.
  rewrite (field_present _ _ _ _ Hra), errors_of_at_loc.
  change (missing_at [Key "risk_assessment"; Key name])
    with (under (Key "risk_assessment") (missing_at [Key name])).
  apply in_map. cbn [validate_model].
  rewrite RiskAssessment_errors_app, !in_app_iff.
  pick_field Hin Hget.
Qed.

Lemma risk_assessment_missing_field_rejected_witness :
  exists errors,
    InvoiceExtraction_init
      (VDict [("risk_assessment", VDict [("is_math_correct", VBool true)])])
    = Raises (ValidationError errors)
    /\ In (missing_at [Key "risk_assessment"; Key "fraud_score"]) errors.
Proof.
  apply (risk_assessment_missing_field_rejected
           [("risk_assessment", VDict [("is_math_correct", VBool true)])]
           [("is_math_correct", VBool true)] "fraud_score").
  - reflexivity.
  - cbn. tauto.
  - reflexivity.
Defined.

(** X10: validation reads the nine fields and nothing else: two replies that
    give the same value to each of the nine names validate alike, whatever
    other keys they hold and in whatever order. *)
Theorem validation_reads_the_fields_only d1 d2 :
  (forall name,
      In name InvoiceExtraction_names ->
      dict_get d1 name = dict_get d2 name) ->
  InvoiceExtraction_init (VDict d1) = InvoiceExtraction_init (VDict d2).
Proof.
  intros H.
  unfold InvoiceExtraction_init, InvoiceExtraction_fields, field.
  rewrite (H "vendor_name"), (H "invoice_date"), (H "invoice_number"),
    (H "line_items"), (H "subtotal"), (H "tax_amount"), (H "grand_total"),
    (H "currency"), (H "risk_assessment")
    by (cbn; tauto).
  reflexivity.
Qed.

Lemma validation_reads_the_fields_only_witness :
  InvoiceExtraction_init
    (VDict (("confidence", VFloat (Scenario.num 99 2))
              :: Scenario.fields (VInt 2) (VFloat (Scenario.num 200 1))
                                 "USD" true 5))
  = InvoiceExtraction_init
      (VDict (Scenario.fields (VInt 2) (VFloat (Scenario.num 200 1))
                              "USD" true 5)).
Proof.
  apply (validation_reads_the_fields_only
           (("confidence", VFloat (Scenario.num 99 2))
              :: Scenario.fields (VInt 2) (VFloat (Scenario.num 200 1))
                                 "USD" true 5)
           (Scenario.fields (VInt 2) (VFloat (Scenario.num 200 1))
                            "USD" true 5)).
  intros name Hin. cbn in Hin.
  repeat (destruct Hin as [<- | Hin]; [reflexivity |]).
  contradiction.
Defined.

(** X11: the line items of a validated record are the line items of the
    reply, one for one and in the reply's order: the record has as many, and
    its i-th one is what the reply's i-th one validated into. *)
Theorem line_items_in_reply_order d items r :
  dict_get d "line_items" = Some (VList items) ->
  InvoiceExtraction_init (VDict d) = Returns r ->
  List.length (line_items r) = List.length items
  /\ forall i v,
       nth_error items i = Some v ->
       exists li,
         nth_error (line_items r) i = Some li
         /\ validate_model LineItem_fields v = Valid li.
Proof.
  intros Hli Hinit. cbn in Hinit.
  destruct (InvoiceExtraction_fields d) as [r' | errors] eqn:Hv;
    [| discriminate].
  injection Hinit as ->.
  apply InvoiceExtraction_fields_valid in Hv as (Hv & _ & _).
  rewrite (field_present _ _ _ _ Hli) in Hv.
  apply at_loc_valid in Hv. cbn in Hv.
  apply validate_items_valid in Hv.
  split.
  - symmetry. eapply Forall2_length. exact Hv.
  - intros i v Hi. eapply Forall2_nth_error in Hv; eauto.
Qed.

Lemma line_items_in_reply_order_witness :
  List.length (line_items Scenario.record_two_lines)
  = List.length Scenario.two_lines
  /\ forall i v,
       nth_error Scenario.two_lines i = Some v ->
       exists li,
         nth_error (line_items Scenario.record_two_lines) i = Some li
         /\ validate_model LineItem_fields v = Valid li.
Proof.
  apply (line_items_in_reply_order
           Scenario.fields_two_lines Scenario.two_lines
           Scenario.record_two_lines).
  - reflexivity.
  - vm_compute. reflexivity.
Defined.

(** X12: line_items must be a list: a reply in which it is anything else
    (null, a text, a number, an object) is rejected, with an error of type
    list_type at line_items. *)
Theorem line_items_not_a_list_rejected d v :
  dict_get d "line_items" = Some v ->
  (forall items, v <> VList items) ->
  exists errors,
    InvoiceExtraction_init (VDict d) = Raises (ValidationError errors)
    /\ In {| err_type := list_type; err_loc := [Key "line_items"] |} errors.
Proof.
  intros Hli Hv. apply init_raises.
  rewrite InvoiceExtraction_errors_app, !in_app_iff.
  do 3 right. left.
  rewrite (field_present _ _ _ _ Hli).
  destruct v; cbn; auto.
  exfalso. eapply Hv. reflexivity.
Qed.

Lemma line_items_not_a_list_rejected_witness :
  exists errors,
    InvoiceExtraction_init (VDict [("line_items", VNone)])
    = Raises (ValidationError errors)
    /\ In {| err_type := list_type; err_loc := [Key "line_items"] |} errors.
Proof.
  apply (line_items_not_a_list_rejected [("line_items", VNone)] VNone).
  - reflexivity.
  - discriminate.
Defined.

Lemma founded_fail {A : Type} t : founded (@fail A t).
Proof. discriminate. Qed.

Lemma founded_at_loc {A : Type} i (r : vres A) :
  founded r -> founded (at_loc i r).
Proof.
  unfold founded. destruct r as [a | [| e l]]; cbn; intros H;
    [discriminate | now destruct H | discriminate].
Qed.

Lemma founded_vmap {A B : Type} (f : A -> B) (r : vres A) :
  founded r -> founded (vmap f r).
Proof.
  unfold founded. destruct r as [a | [| e l]]; cbn; intros H;
    [discriminate | now destruct H | discriminate].
Qed.

Lemma founded_vap {A B : Type} (rf : vres (A -> B)) (ra : vres A) :
  founded rf -> founded ra -> founded (vap rf ra).
Proof.
  unfold founded.
  destruct rf as [f | [| e l]], ra as [a | [| e' l']]; cbn; intros H1 H2;
    try discriminate; try now destruct H1; try now destruct H2.
Qed.

Lemma founded_sized z : founded (sized z).
Proof.
  unfold sized. destruct ((- 2 ^ 63 <? z) && (z <? 2 ^ 63)); discriminate.
Qed.

Lemma founded_float_as_int f : founded (float_as_int f).
Proof.
  destruct f as [s | s | | s m e]; cbn [float_as_int]; try discriminate.
  destruct (0 <=? e); [apply founded_sized |].
  destruct (Z.pos m mod 2 ^ (- e) =? 0);
    [apply founded_sized | discriminate].
Qed.

Lemma founded_int_as_bool z : founded (int_as_bool z).
Proof.
  unfold int_as_bool.
  destruct (z =? 0); [discriminate |].
  destruct (z =? 1); discriminate.
Qed.

Lemma founded_validate_str v : founded (validate_str v).
Proof. destruct v; discriminate. Qed.

Lemma founded_validate_float v : founded (validate_float v).
Proof.
  destruct v as [| b | z | f | s | l | d]; cbn; try discriminate.
  - destruct (Py.float_of_int z); discriminate.
  - destruct (Numeral.parse_float s); discriminate.
Qed.

Lemma founded_validate_int v : founded (validate_int v).
Proof.
  destruct v as [| b | z | f | s | l | d]; cbn; try discriminate.
  - apply founded_float_as_int.
  - destruct (Numeral.parse_int s); discriminate.
Qed.

Lemma founded_validate_bool v : founded (validate_bool v).
Proof.
  destruct v as [| b | z | f | s | l | d]; cbn; try discriminate.
  - apply founded_int_as_bool.
  - destruct (float_as_int f); [apply founded_int_as_bool | discriminate].
  - destruct (Numeral.parse_bool s); discriminate.
Qed.

Lemma founded_validate_items {A : Type} (item : value -> vres A) :
  (forall v, founded (item v)) ->
  forall l k, founded (validate_items item l k).
Proof.
  intros Hitem. induction l as [| v l IH]; intros k; cbn; [discriminate |].
  apply founded_vap; [| apply IH].
  apply founded_vmap, founded_at_loc, Hitem.
Qed.

Lemma founded_validate_list {A : Type} (item : value -> vres A) :
  (forall v, founded (item v)) ->
  forall v, founded (validate_list item v).
Proof.
  intros Hitem v.
  destruct v; cbn; try discriminate.
  now apply founded_validate_items.
Qed.

Lemma founded_field {A : Type} name (validator : value -> vres A) d :
  (forall v, founded (validator v)) -> founded (field name validator d).
Proof.
  intros H. unfold field.
  destruct (dict_get d name); apply founded_at_loc; [apply H | discriminate].
Qed.

Lemma founded_validate_model {A : Type} (fields : dict -> vres A) :
  (forall d, founded (fields d)) ->
  forall v, founded (validate_model fields v).
Proof.
  intros H v. destruct v; cbn; try discriminate. apply H.
Qed.

Create HintDb founded.
#[local] Hint Resolve founded_vap founded_vmap founded_field
  founded_validate_str founded_validate_float founded_validate_int
  founded_validate_bool founded_validate_list founded_validate_model
  : founded.

Lemma founded_LineItem_fields d : founded (LineItem_fields d).
Proof. unfold LineItem_fields. auto 10 with founded. Qed.

Lemma founded_RiskAssessment_fields d : founded (RiskAssessment_fields d).
Proof. unfold RiskAssessment_fields. auto 10 with founded. Qed.

Lemma founded_InvoiceExtraction_fields d :
  founded (InvoiceExtraction_fields d).
Proof.
  unfold InvoiceExtraction_fields.
  repeat apply founded_vap; try apply founded_vmap;
    auto 6 using founded_LineItem_fields, founded_RiskAssessment_fields
      with founded.
Qed.

(** X13: a validation error is never empty and always says where: it carries
    at least one error, and each error lies under one of the nine field
    names. *)
Theorem validation_error_is_located v errors :
  InvoiceExtraction_init v = Raises (ValidationError errors) ->
  errors <> []
  /\ forall e,
       In e errors ->
       exists name l,
         In name InvoiceExtraction_names /\ err_loc e = Key name :: l.
Proof.
  destruct v as [| | | | | | d]; try discriminate. cbn.
  destruct (InvoiceExtraction_fields d) as [r | errors'] eqn:Hv;
    [discriminate |].
  intros H. injection H as ->. split.
  - intros ->. now apply (founded_InvoiceExtraction_fields d).
  - intros e He.
    assert (H : In e (errors_of (InvoiceExtraction_fields d)))
      by (rewrite Hv; exact He).
    rewrite InvoiceExtraction_errors_app, !in_app_iff in H.
    repeat (destruct H as [H | H];
            [apply field_error_loc in H as (l & Hl);
             eexists _, l; (split; [| exact Hl]); cbn; tauto |]).
    apply field_error_loc in H as (l & Hl).
    eexists _, l. split; [| exact Hl]. cbn. tauto.
Qed.

Lemma validation_error_is_located_witness :
  [missing_at [Key "vendor_name"]; missing_at [Key "invoice_date"];
   missing_at [Key "invoice_number"]; missing_at [Key "line_items"];
   missing_at [Key "subtotal"]; missing_at [Key "tax_amount"];
   missing_at [Key "grand_total"]; missing_at [Key "currency"];
   missing_at [Key "risk_assessment"]] <> []
  /\ forall e,
       In e [missing_at [Key "vendor_name"]; missing_at [Key "invoice_date"];
             missing_at [Key "invoice_number"]; missing_at [Key "line_items"];
             missing_at [Key "subtotal"]; missing_at [Key "tax_amount"];
             missing_at [Key "grand_total"]; missing_at [Key "currency"];
             missing_at [Key "risk_assessment"]] ->
       exists name l,
         In name InvoiceExtraction_names /\ err_loc e = Key name :: l.
Proof.
  apply (validation_error_is_located (VDict [])).
  reflexivity.
Defined.

(** ** Serialising and validating again, in full *)

Lemma float_json_valid f f' :
  validate_float (float_json f) = Valid f' -> Py.isfinite f = true.
Proof.
  unfold float_json. destruct (Py.isfinite f); [reflexivity | discriminate].
Qed.

Lemma LineItem_json_valid li li' :
  validate_model LineItem_fields (LineItem_json li) = Valid li' ->
  LineItem_finite li = true.
Proof.
  cbn [validate_model LineItem_json]. intros H.
  apply LineItem_fields_valid in H as (_ & Hq & Hu & Ht).
  unfold field in Hq, Hu, Ht.
  cbn [dict_get String.eqb Ascii.eqb Bool.eqb] in Hq, Hu, Ht.
  apply at_loc_valid, float_json_valid in Hq, Hu, Ht.
  unfold LineItem_finite. rewrite Hq, Hu, Ht. reflexivity.
Qed.

Lemma lines_json_valid l :
  forall k l',
    validate_items (validate_model LineItem_fields) (map LineItem_json l) k
    = Valid l' ->
    forallb LineItem_finite l = true.
Proof.
  induction l as [| li l IH]; intros k l' H; [reflexivity |].
  cbn [map validate_items] in H.
  apply vap_valid in H as (f & rest & Hf & Hrest & _).
  apply vmap_valid in Hf as (li' & Hli & _).
  apply at_loc_valid in Hli.
  cbn [forallb].
  rewrite (LineItem_json_valid li li' Hli), (IH _ _ Hrest). reflexivity.
Qed.

Lemma InvoiceExtraction_fields_valid_totals d r :
  InvoiceExtraction_fields d = Valid r ->
  field "subtotal" validate_float d = Valid (subtotal r)
  /\ field "tax_amount" validate_float d = Valid (tax_amount r)
  /\ field "grand_total" validate_float d = Valid (grand_total r).
Proof.
  unfold InvoiceExtraction_fields. intros H.
  repeat (apply vap_valid in H as (? & ? & H & ? & ->)).
  apply vmap_valid in H as (? & ? & ->).
  cbn. auto.
Qed.

Lemma record_json_valid r r' :
  InvoiceExtraction_init (record_json r) = Returns r' ->
  all_finite r = true.
Proof.
  intros H.
  unfold InvoiceExtraction_init, record_json in H.
  match type of H with
  | context [InvoiceExtraction_fields ?d] =>
      destruct (InvoiceExtraction_fields d) as [r0 | errors] eqn:Hv
  end; [| discriminate].
  pose proof (InvoiceExtraction_fields_valid _ _ Hv) as (Hl & _ & _).
  pose proof (InvoiceExtraction_fields_valid_totals _ _ Hv)
    as (Hs & Ht & Hg).
  unfold field in Hl, Hs, Ht, Hg.
  cbn [dict_get String.eqb Ascii.eqb Bool.eqb] in Hl, Hs, Ht, Hg.
  apply at_loc_valid, float_json_valid in Hs, Ht, Hg.
  apply at_loc_valid in Hl. cbn [validate_list] in Hl.
  apply lines_json_valid in Hl.
  unfold all_finite. rewrite Hl, Hs, Ht, Hg. reflexivity.
Qed.

(** X14: validating the serialised form of a record never yields another
    record.  When it yields one, it is the record itself, all its floats are
    finite and none of its texts holds a lone surrogate; and it does yield
    the record when, besides, the fraud_score has at most 4300 digits. *)
Theorem revalidation_gives_the_record_or_fails r :
  (forall v' r',
      dump_json_loads r = Some v' ->
      InvoiceExtraction_init v' = Returns r' ->
      r' = r /\ all_finite r = true /\ all_encodable r = true)
  /\ (all_finite r = true ->
      all_encodable r = true ->
      readable_int (fraud_score (risk_assessment r)) = true ->
      exists v',
        dump_json_loads r = Some v' /\ InvoiceExtraction_init v' = Returns r).
Proof.
  split.
  - intros v' r' Hdump Hinit.
    unfold dump_json_loads in Hdump.
    destruct (all_encodable r) eqn:Henc; [| discriminate].
    destruct (readable_int (fraud_score (risk_assessment r)));
      [| discriminate].
    injection Hdump as <-.
    pose proof (record_json_valid r r' Hinit) as Hfin.
    rewrite (record_json_finite r Hfin) in Hinit.
    injection Hinit as <-. auto.
  - intros Hfin Henc Hint.
    exists (record_json r). split.
    + unfold dump_json_loads. rewrite Henc, Hint. reflexivity.
    + now apply record_json_finite.
Qed.

Lemma revalidation_gives_the_record_or_fails_witness :
  (forall v' r',
      dump_json_loads Scenario.record_two_lines = Some v' ->
      InvoiceExtraction_init v' = Returns r' ->
      r' = Scenario.record_two_lines
      /\ all_finite Scenario.record_two_lines = true
      /\ all_encodable Scenario.record_two_lines = true)
  /\ (all_finite Scenario.record_two_lines = true ->
      all_encodable Scenario.record_two_lines = true ->
      readable_int (fraud_score (risk_assessment Scenario.record_two_lines))
      = true ->
      exists v',
        dump_json_loads Scenario.record_two_lines = Some v'
        /\ InvoiceExtraction_init v' = Returns Scenario.record_two_lines).
Proof.
  apply (revalidation_gives_the_record_or_fails Scenario.record_two_lines).
Defined.

(** ** [extract_text_from_pdf]: the text, or the first exception *)

Lemma append_assoc_text (a b c : string) :
  ((a ++ b) ++ c)%string = (a ++ (b ++ c))%string.
Proof. induction a as [| x a IH]; cbn; [reflexivity | now rewrite IH]. Qed.

Lemma or_empty_text (t : string) : or_empty (Some t) = t.
Proof. destruct t; reflexivity. Qed.

Lemma read_pages_text pages :
  first_page_exception pages = None ->
  forall text w,
    read_pages pages text w
    = (Returns (text ++ document_text pages)%string, w).
Proof.
  induction pages as [| p pages IH]; intros H text w; cbn.
  - rewrite append_empty_r. reflexivity.
  - cbn in H. unfold bind, lift, page_text.
    destruct (extract_text p) as [e | [t |]]; [discriminate | |];
      rewrite (IH H), append_assoc_text;
      [rewrite or_empty_text |]; reflexivity.
Qed.

Lemma read_pages_raises pages e :
  first_page_exception pages = Some e ->
  forall text w, read_pages pages text w = (Raises e, w).
Proof.
  induction pages as [| p pages IH]; intros H text w; cbn in *;
    [discriminate |].
  unfold bind, lift.
  destruct (extract_text p) as [e' | t].
  - injection H as ->. reflexivity.
  - apply (IH H).
Qed.

Lemma extract_text_from_pdf_text pages w :
  first_page_exception pages = None ->
  extract_text_from_pdf (Returns pages) w
  = (Returns (Some (document_text pages)), w).
Proof.
  intros H. unfold extract_text_from_pdf, try_except, bind, lift.
  rewrite (read_pages_text pages H). reflexivity.
Qed.

Lemma extract_text_from_pdf_raises f e w :
  first_exception f = Some e ->
  extract_text_from_pdf f w
  = (Returns None, showing w (Formatted "Error reading PDF: " e)).
Proof.
  intros H. unfold extract_text_from_pdf, try_except, bind, lift.
  destruct f as [e' | pages]; cbn in H.
  - injection H as ->. reflexivity.
  - rewrite (read_pages_raises pages e H). reflexivity.
Qed.

(** X15: when the document opens and no page raises, the text returned is
    the texts that [extract_text] gave for the pages, put end to end in page
    order, a page for which it gave [None] adding nothing; nothing is
    shown. *)
Theorem extract_text_from_pdf_joins_the_pages pages w :
  first_page_exception pages = None ->
  extract_text_from_pdf (Returns pages) w
  = (Returns (Some (fold_right append EmptyString (map page_text pages))), w).
Proof. apply extract_text_from_pdf_text. Qed.

Lemma extract_text_from_pdf_joins_the_pages_witness :
  extract_text_from_pdf
    (Returns [mkPage (Returns (Some "Invoice ")); mkPage (Returns None);
              mkPage (Returns (Some "INV-1")); mkPage (Returns (Some " due"))])
    empty_world
  = (Returns (Some "Invoice INV-1 due"), empty_world).
Proof.
  apply (extract_text_from_pdf_joins_the_pages
           [mkPage (Returns (Some "Invoice ")); mkPage (Returns None);
            mkPage (Returns (Some "INV-1")); mkPage (Returns (Some " due"))]
           empty_world).
  reflexivity.
Defined.

(** X16: when opening the document raises, or else when a page does, the
    function returns [None] and shows one message, Error reading PDF with the
    first exception raised; the text of the pages read before is dropped and
    the pages after are not read. *)
Theorem extract_text_from_pdf_reports_first_exception f e w :
  first_exception f = Some e ->
  extract_text_from_pdf f w
  = (Returns None,
     {| calls := calls w;
        shown := shown w ++ [Formatted "Error reading PDF: " e] |}).
Proof. apply extract_text_from_pdf_raises. Qed.

Lemma extract_text_from_pdf_reports_first_exception_witness :
  extract_text_from_pdf
    (Returns [mkPage (Returns (Some "Invoice "));
              mkPage (Raises (OtherError "bad page"));
              mkPage (Raises TypeError)])
    empty_world
  = (Returns None,
     {| calls := calls empty_world;
        shown := shown empty_world
                 ++ [Formatted "Error reading PDF: "
                               (OtherError "bad page")] |}).
Proof.
  apply (extract_text_from_pdf_reports_first_exception
           (Returns [mkPage (Returns (Some "Invoice "));
                     mkPage (Raises (OtherError "bad page"));
                     mkPage (Raises TypeError)])
           (OtherError "bad page") empty_world).
  reflexivity.
Defined.

Lemma extract_text_from_pdf_ends f w :
  (exists result, fst (extract_text_from_pdf f w) = Returns result)
  /\ calls (snd (extract_text_from_pdf f w)) = calls w.
Proof.
  destruct (first_exception f) as [e |] eqn:H.
  - rewrite (extract_text_from_pdf_raises f e w H). cbn. eauto.
  - destruct f as [e | pages]; [discriminate |].
    rewrite (extract_text_from_pdf_text pages w H). cbn. eauto.
Qed.

(** X17: [extract_text_from_pdf] never raises and never calls a backend:
    whatever the document does, the caller gets a value back, the record of
    calls is as it was, and at most one message is shown, after those already
    shown. *)
Theorem extract_text_from_pdf_never_raises f w :
  (exists result, fst (extract_text_from_pdf f w) = Returns result)
  /\ calls (snd (extract_text_from_pdf f w)) = calls w
  /\ (shown (snd (extract_text_from_pdf f w)) = shown w
      \/ exists m,
           shown (snd (extract_text_from_pdf f w)) = (shown w ++ [m])%list).
Proof.
  destruct (extract_text_from_pdf_ends f w) as [Hres Hcalls].
  repeat split; auto.
  destruct (first_exception f) as [e |] eqn:H.
  - rewrite (extract_text_from_pdf_raises f e w H). cbn. eauto.
  - destruct f as [e | pages]; [discriminate |].
    rewrite (extract_text_from_pdf_text pages w H). cbn. eauto.
Qed.

(** ** The page: when the backend is called, and with what *)

Ltac read_upload uploaded_file :=
  unfold page, ui_bind, in_world;
  let e := fresh "e" in
  let pages := fresh "pages" in
  let Hp := fresh "Hp" in
  destruct uploaded_file as [[e | pages] |];
  [ rewrite (extract_text_from_pdf_raises (Raises e) e) by reflexivity
  | destruct (first_page_exception pages) as [e |] eqn:Hp;
    [ rewrite (extract_text_from_pdf_raises (Returns pages) e _ Hp)
    | rewrite (extract_text_from_pdf_text pages _ Hp) ]
  | ];
  cbn [world warnings].

(** X18: without a key the page never calls a backend: whatever the upload
    and the button, the record of calls is as it was, nothing is displayed,
    and pressing the button on an upload adds the one warning that asks for
    the key of the provider. *)
Theorem page_without_key lib provider uploaded_file button s :
  fst (page lib provider EmptyString uploaded_file button s) = Returns None
  /\ calls (world (snd (page lib provider EmptyString uploaded_file button s)))
     = calls (world s)
  /\ warnings (snd (page lib provider EmptyString uploaded_file button s))
     = if button && present uploaded_file
       then (warnings s
             ++ [("Please provide your " ++ provider
                  ++ " API Key in the sidebar.")%string])%list
       else warnings s.
Proof.
  read_upload uploaded_file; destruct button; cbn; auto.
Qed.

(** X19: the page calls a backend only when the button is pressed, the key
    is not empty and the upload gave a text that is not empty; the call then
    is the one call of [analyze_invoice], carrying that key and that text. *)
Theorem page_call_needs_key_and_text
    lib provider api_key uploaded_file button s :
  calls (world (snd (page lib provider api_key uploaded_file button s)))
  <> calls (world s) ->
  button = true /\ api_key <> EmptyString
  /\ exists pages,
       uploaded_file = Some (Returns pages)
       /\ first_page_exception pages = None
       /\ document_text pages <> EmptyString
       /\ calls (world (snd (page lib provider api_key uploaded_file
                                  button s)))
          = (calls (world s)
             ++ [outbound provider api_key (document_text pages)])%list.
Proof.
  read_upload uploaded_file; destruct button; cbn;
    try (intros H; now destruct H);
    unfold analyze_button; destruct api_key as [| c k]; cbn;
    try (intros H; now destruct H).
  destruct (document_text pages) as [| c' t] eqn:Ht; cbn;
    try (intros H; now destruct H).
  unfold in_world. cbn [world warnings].
  pose proof (analyze_invoice_ending lib provider (String c k) (String c' t)
                                     (world s)) as Hend.
  destruct (analyze_invoice lib provider (String c k) (String c' t) (world s))
    as [o w'].
  inversion Hend; subst; cbn; intros H; try now destruct H.
  all: split; [reflexivity |]; split; [discriminate |];
    exists pages; rewrite Ht; repeat split; auto; discriminate.
Qed.

Lemma page_call_needs_key_and_text_witness :
  true = true /\ "key" <> EmptyString
  /\ exists pages,
       Some (Returns [mkPage (Returns (Some "Invoice INV-1"))])
       = Some (Returns pages)
       /\ first_page_exception pages = None
       /\ document_text pages <> EmptyString
       /\ calls (world (snd (page
                               (Scenario.only_genai
                                  (Returns (JSON Scenario.reply_A)))
                               "Google Gemini" "key"
                               (Some (Returns
                                        [mkPage
                                           (Returns (Some "Invoice INV-1"))]))
                               true
                               {| world := empty_world; warnings := [] |})))
          = (calls (world {| world := empty_world; warnings := [] |})
             ++ [outbound "Google Gemini" "key" (document_text pages)])%list.
Proof.
  apply (page_call_needs_key_and_text
           (Scenario.only_genai (Returns (JSON Scenario.reply_A)))
           "Google Gemini" "key"
           (Some (Returns [mkPage (Returns (Some "Invoice INV-1"))]))
           true {| world := empty_world; warnings := [] |}).
  vm_compute. discriminate.
Defined.

(** X20: when the upload gives no text (reading it raised, or the text is
    empty), pressing the button with a key calls no backend: the page shows,
    after what the reading showed, that it could not read text from the PDF,
    and displays nothing. *)
Theorem page_without_text lib provider api_key f s raw_text :
  api_key <> EmptyString ->
  fst (extract_text_from_pdf f (world s)) = Returns raw_text ->
  raw_text = None \/ raw_text = Some EmptyString ->
  fst (page lib provider api_key (Some f) true s) = Returns None
  /\ calls (world (snd (page lib provider api_key (Some f) true s)))
     = calls (world s)
  /\ shown (world (snd (page lib provider api_key (Some f) true s)))
     = (shown (snd (extract_text_from_pdf f (world s)))
        ++ [Literal "Could not read text from PDF. It might be a scanned image (OCR not supported in this demo)."])%list.
Proof.
  intros Hkey Hread Hnone.
  destruct api_key as [| c k]; [now destruct Hkey |].
  unfold page, ui_bind, in_world.
  pose proof (extract_text_from_pdf_ends f (world s)) as [_ Hcalls].
  destruct (extract_text_from_pdf f (world s)) as [o w1].
  cbn in Hread, Hcalls. subst o.
  cbn [world warnings analyze_button].
  destruct Hnone as [-> | ->]; cbn; auto.
Qed.

Lemma page_without_text_witness :
  fst (page Scenario.timeout_once "Google Gemini" "key"
            (Some (Returns [mkPage (Returns None)])) true
            {| world := empty_world; warnings := [] |})
  = Returns None
  /\ calls (world (snd (page Scenario.timeout_once "Google Gemini" "key"
                             (Some (Returns [mkPage (Returns None)])) true
                             {| world := empty_world; warnings := [] |})))
     = calls (world {| world := empty_world; warnings := [] |})
  /\ shown (world (snd (page Scenario.timeout_once "Google Gemini" "key"
                             (Some (Returns [mkPage (Returns None)])) true
                             {| world := empty_world; warnings := [] |})))
     = (shown (snd (extract_text_from_pdf
                      (Returns [mkPage (Returns None)])
                      (world {| world := empty_world; warnings := [] |})))
        ++ [Literal "Could not read text from PDF. It might be a scanned image (OCR not supported in this demo)."])%list.
Proof.
  apply (page_without_text Scenario.timeout_once "Google Gemini" "key"
           (Returns [mkPage (Returns None)])
           {| world := empty_world; warnings := [] |}
           (Some EmptyString)).
  - discriminate.
  - reflexivity.
  - right. reflexivity.
Defined.

(** X21: a record the page displays was delivered by the backend for the text
    extracted from the upload, with the key and the provider of the page, on
    a press of the button. *)
Theorem page_displays_what_was_delivered
    lib provider api_key uploaded_file button s r :
  fst (page lib provider api_key uploaded_file button s) = Returns (Some r) ->
  button = true
  /\ exists f text,
       uploaded_file = Some f
       /\ fst (extract_text_from_pdf f (world s)) = Returns (Some text)
       /\ delivered lib provider api_key text (world s) r.
Proof.
  read_upload uploaded_file; destruct button; cbn; try discriminate;
    unfold analyze_button; destruct api_key as [| c k]; cbn;
    try discriminate.
  destruct (document_text pages) as [| c' t] eqn:Ht; cbn; try discriminate.
  unfold in_world. cbn [world warnings].
  pose proof (analyze_invoice_ending lib provider (String c k) (String c' t)
                                     (world s)) as Hend.
  destruct (analyze_invoice lib provider (String c k) (String c' t) (world s))
    as [o w'].
  inversion Hend; subst; cbn; intros H; try discriminate.
  injection H as <-.
  split; [reflexivity |].
  exists (Returns pages), (String c' t).
  rewrite (extract_text_from_pdf_text pages _ Hp), Ht. auto.
Qed.

Lemma page_displays_what_was_delivered_witness :
  true = true
  /\ exists f text,
       Some (Returns [mkPage (Returns (Some "Invoice INV-1"))]) = Some f
       /\ fst (extract_text_from_pdf
                 f (world {| world := empty_world; warnings := [] |}))
          = Returns (Some text)
       /\ delivered (Scenario.only_genai (Returns (JSON Scenario.reply_A)))
                    "Google Gemini" "key" text
                    (world {| world := empty_world; warnings := [] |})
                    Scenario.record_A.
Proof.
  apply (page_displays_what_was_delivered
           (Scenario.only_genai (Returns (JSON Scenario.reply_A)))
           "Google Gemini" "key"
           (Some (Returns [mkPage (Returns (Some "Invoice INV-1"))]))
           true {| world := empty_world; warnings := [] |}
           Scenario.record_A).
  vm_compute. reflexivity.
Defined.

(** X22: with a key and a text, pressing the button runs [analyze_invoice] on
    the text extracted from the upload: the page displays what it returns and
    the world is the one it leaves. *)
Theorem page_runs_the_analysis lib provider api_key pages s :
  api_key <> EmptyString ->
  first_page_exception pages = None ->
  document_text pages <> EmptyString ->
  fst (page lib provider api_key (Some (Returns pages)) true s)
  = fst (analyze_invoice lib provider api_key (document_text pages) (world s))
  /\ world (snd (page lib provider api_key (Some (Returns pages)) true s))
     = snd (analyze_invoice lib provider api_key (document_text pages)
                            (world s))
  /\ warnings (snd (page lib provider api_key (Some (Returns pages)) true s))
     = warnings s.
Proof.
  intros Hkey Hp Ht.
  unfold page, ui_bind, in_world.
  rewrite (extract_text_from_pdf_text pages _ Hp). cbn [world warnings].
  unfold analyze_button.
  destruct api_key as [| c k]; [now destruct Hkey |].
  destruct (document_text pages) as [| c' t]; [now destruct Ht |].
  unfold in_world. cbn [world warnings].
  destruct (analyze_invoice lib provider (String c k) (String c' t) (world s)).
  cbn. auto.
Qed.

Lemma page_runs_the_analysis_witness :
  fst (page Scenario.timeout_once "Google Gemini" "key"
            (Some (Returns [mkPage (Returns (Some "Invoice INV-1"))])) true
            {| world := empty_world; warnings := [] |})
  = fst (analyze_invoice Scenario.timeout_once "Google Gemini" "key"
           (document_text [mkPage (Returns (Some "Invoice INV-1"))])
           (world {| world := empty_world; warnings := [] |}))
  /\ world (snd (page Scenario.timeout_once "Google Gemini" "key"
                      (Some (Returns [mkPage (Returns (Some "Invoice INV-1"))]))
                      true {| world := empty_world; warnings := [] |}))
     = snd (analyze_invoice Scenario.timeout_once "Google Gemini" "key"
              (document_text [mkPage (Returns (Some "Invoice INV-1"))])
              (world {| world := empty_world; warnings := [] |}))
  /\ warnings (snd (page Scenario.timeout_once "Google Gemini" "key"
                         (Some (Returns
                                  [mkPage (Returns (Some "Invoice INV-1"))]))
                         true {| world := empty_world; warnings := [] |}))
     = warnings {| world := empty_world; warnings := [] |}.
Proof.
  apply (page_runs_the_analysis Scenario.timeout_once "Google Gemini" "key"
           [mkPage (Returns (Some "Invoice INV-1"))]
           {| world := empty_world; warnings := [] |}).
  - discriminate.
  - reflexivity.
  - discriminate.
Defined.
